(** * Reconciliation of a Proxmox SDN zone: a shallow embedding

    The development follows [plugins/modules/proxmox_sdn_zone.py] (class
    [ProxmoxSDNZoneModule] and [main]) and [plugins/module_utils/sdn.py]
    ([apply_sdn_configuration]).  Python dictionaries are finite maps with
    string keys, the remote API is an interface whose calls are recorded in
    a trace, and [fail_json] ends the run. *)

From Stdlib Require Import ZArith Lia.
From stdpp Require Import gmap strings list fin_maps pretty.

Local Open Scope Z_scope.


(** ** Python values and their [str()] form *)

(** The values that travel through the module: [None], booleans, integers
    and strings (module parameters of type bool, int and str; scalar fields
    of a zone as decoded from the backend's JSON). *)
Inductive PyVal : Type :=
  | VNone
  | VBool (b : bool)
  | VInt (n : Z)
  | VStr (s : string).

#[global] Instance PyVal_eq_dec : EqDecision PyVal.
Proof. solve_decision. Defined.

(** Python's [str(v)]. *)
Definition py_str (v : PyVal) : string :=
  match v with
  | VNone => "None"
  | VBool true => "True"
  | VBool false => "False"
  | VInt n => pretty n
  | VStr s => s
  end.

(** Truthiness of an optional string ([if lock_token:], [if zone_type]):
    [None] and the empty string are false. *)
Definition str_truthy (s : option string) : bool :=
  match s with
  | Some t => negb (String.eqb t "")
  | None => false
  end.

(** [VStr] of a supplied string, [VNone] otherwise. *)
Definition of_opt_str (s : option string) : PyVal :=
  match s with Some t => VStr t | None => VNone end.

Definition of_opt_int (n : option Z) : PyVal :=
  match n with Some z => VInt z | None => VNone end.

Definition of_opt_bool (b : option bool) : PyVal :=
  match b with Some x => VBool x | None => VNone end.

(** A Python dict with string keys. *)
Abbreviation Dict := (gmap string PyVal).

(** [d.get(key)]: [None] when the key is missing. *)
Definition dict_get (d : Dict) (key : string) : PyVal :=
  default VNone (d !! key).

(** Truthiness of a fetched zone ([if not existing_zone]): [None] and the
    empty dict are false. *)
Definition zone_truthy (z : option Dict) : bool :=
  match z with
  | Some d => negb (bool_decide (d = ∅))
  | None => false
  end.

(** [sub in s] on strings. *)
Fixpoint str_in (sub s : string) : bool :=
  String.prefix sub s ||
  match s with
  | EmptyString => false
  | String _ s' => str_in sub s'
  end.

(** ** Module parameters *)

(** [module.params] after validation against the argument spec of [main]:
    every option carries a value of its declared type or is [None]. *)
Record Params : Type := {
  zone : string;
  type : option string;
  state : string;
  lock_token : option string;
  advertise_subnets : option bool;
  bridge : option string;
  bridge_disable_mac_learning : option bool;
  controller : option string;
  dhcp : option string;
  disable_arp_nd_suppression : option bool;
  dns : option string;
  dnszone : option string;
  dp_id : option Z;
  exitnodes : option string;
  exitnodes_local_routing : option bool;
  exitnodes_primary : option string;
  fabric : option string;
  ipam : option string;
  mac : option string;
  mtu : option Z;
  nodes : option string;
  peers : option string;
  reversedns : option string;
  rt_import : option string;
  tag : option Z;
  vlan_protocol : option string;
  vrf_vxlan : option Z;
  vxlan_port : option Z
}.

(** The zone options of [module.params] as (name, value) entries. *)
Definition option_params (p : Params) : list (string * PyVal) :=
  [ ("advertise_subnets", of_opt_bool (advertise_subnets p));
    ("bridge", of_opt_str (bridge p));
    ("bridge_disable_mac_learning", of_opt_bool (bridge_disable_mac_learning p));
    ("controller", of_opt_str (controller p));
    ("dhcp", of_opt_str (dhcp p));
    ("disable_arp_nd_suppression", of_opt_bool (disable_arp_nd_suppression p));
    ("dns", of_opt_str (dns p));
    ("dnszone", of_opt_str (dnszone p));
    ("dp_id", of_opt_int (dp_id p));
    ("exitnodes", of_opt_str (exitnodes p));
    ("exitnodes_local_routing", of_opt_bool (exitnodes_local_routing p));
    ("exitnodes_primary", of_opt_str (exitnodes_primary p));
    ("fabric", of_opt_str (fabric p));
    ("ipam", of_opt_str (ipam p));
    ("mac", of_opt_str (mac p));
    ("mtu", of_opt_int (mtu p));
    ("nodes", of_opt_str (nodes p));
    ("peers", of_opt_str (peers p));
    ("reversedns", of_opt_str (reversedns p));
    ("rt_import", of_opt_str (rt_import p));
    ("tag", of_opt_int (tag p));
    ("vlan_protocol", of_opt_str (vlan_protocol p));
    ("vrf_vxlan", of_opt_int (vrf_vxlan p));
    ("vxlan_port", of_opt_int (vxlan_port p)) ].

(** [module.params.get(option)] for a zone option. *)
Definition params_get (p : Params) (option : string) : PyVal :=
  match list_find (λ e, bool_decide (e.1 = option)) (option_params p) with
  | Some (_, (_, v)) => v
  | None => VNone
  end.

(** The active module: its parameters and the check-mode flag. *)
Record AnsibleModule : Type := {
  params : Params;
  check_mode : bool
}.

(** The choices of the [type] option in the argument spec. *)
Definition type_choices : list string :=
  ["evpn"; "faucet"; "qinq"; "simple"; "vlan"; "vxlan"].

(** ** The option tables of [ProxmoxSDNZoneModule] *)

Definition ZONE_OPTION_MAP : list (string * string) :=
  [ ("advertise_subnets", "advertise-subnets");
    ("bridge", "bridge");
    ("bridge_disable_mac_learning", "bridge-disable-mac-learning");
    ("controller", "controller");
    ("dhcp", "dhcp");
    ("disable_arp_nd_suppression", "disable-arp-nd-suppression");
    ("dns", "dns");
    ("dnszone", "dnszone");
    ("dp_id", "dp-id");
    ("exitnodes", "exitnodes");
    ("exitnodes_local_routing", "exitnodes-local-routing");
    ("exitnodes_primary", "exitnodes-primary");
    ("fabric", "fabric");
    ("ipam", "ipam");
    ("mac", "mac");
    ("mtu", "mtu");
    ("nodes", "nodes");
    ("peers", "peers");
    ("reversedns", "reversedns");
    ("rt_import", "rt-import");
    ("tag", "tag");
    ("vlan_protocol", "vlan-protocol");
    ("vrf_vxlan", "vrf-vxlan");
    ("vxlan_port", "vxlan-port") ].

Definition BOOLEAN_OPTIONS : list string :=
  [ "advertise_subnets";
    "bridge_disable_mac_learning";
    "disable_arp_nd_suppression";
    "exitnodes_local_routing" ].

(** Modelled from the spec: [ansible_to_proxmox_bool] is imported from
    [module_utils/proxmox.py], which is not among the sources.  The spec
    gives it as the coercion of a boolean to the backend's integers 0/1
    (section 3; the unit test expects [True] to be sent as [1]).  The
    parameters type every boolean option as a boolean, so [build_payload]
    applies it to nothing else; other values are left as they are here. *)
Definition ansible_to_proxmox_bool (value : PyVal) : PyVal :=
  match value with
  | VBool true => VInt 1
  | VBool false => VInt 0
  | v => v
  end.

(** ** Payload and diff *)

(** One round of the loop of [build_payload]. *)
Definition build_payload_step (p : Params) (payload : Dict)
    (item : string * string) : Dict :=
  let '(option, api_field) := item in
  let value := params_get p option in
  match value with
  | VNone => payload
  | _ =>
      let value :=
        if bool_decide (option ∈ BOOLEAN_OPTIONS)
        then ansible_to_proxmox_bool value else value in
      <[api_field := value]> payload
  end.

Definition build_payload (p : Params) : Dict :=
  fold_left (build_payload_step p) ZONE_OPTION_MAP ∅.

(** One round of the loop of [build_updates]. *)
Definition build_updates_step (existing : Dict) (api_field : string)
    (desired_value : PyVal) (updates : Dict) : Dict :=
  let current_value := dict_get existing api_field in
  if bool_decide (py_str current_value ≠ py_str desired_value)
  then <[api_field := desired_value]> updates
  else updates.

Definition build_updates (existing desired : Dict) : Dict :=
  map_fold (build_updates_step existing) ∅ desired.

(** ** The remote API, the trace of calls and the module's runs *)

(** What a call raises: proxmoxer's [ResourceException] with its
    [status_code] attribute ([None] when [getattr] finds none), or any other
    exception; [text] is what [to_native(exc)] gives. *)
Inductive Exc : Type :=
  | ResourceException (status_code : option Z) (text : string)
  | OtherException (text : string).

Definition to_native (exc : Exc) : string :=
  match exc with
  | ResourceException _ text => text
  | OtherException text => text
  end.

Inductive Outcome (A : Type) : Type :=
  | Returned (a : A)
  | Raised (exc : Exc).
Arguments Returned {A} a.
Arguments Raised {A} exc.

(** The calls the module issues on [proxmox_api.cluster.sdn], each with its
    keyword arguments: [zones(zone_name).get()], [zones.post], 
    [zones(zone_name).put], [zones(zone_name).delete] and [put] on
    [cluster.sdn] itself. *)
Inductive Call : Type :=
  | ZoneGet (zone_name : string)
  | ZonesPost (kwargs : Dict)
  | ZonePut (zone_name : string) (kwargs : Dict)
  | ZoneDelete (zone_name : string) (kwargs : Dict)
  | SdnPut (kwargs : Dict).

(** A call that can change the cluster: everything but the fetch. *)
Definition mutating (c : Call) : bool :=
  match c with
  | ZoneGet _ => false
  | _ => true
  end.

(** The transport: each call answers from the state [W] of the remote side,
    which it may change, and either returns or raises. *)
Class Api (W : Type) : Type := {
  zone_get : string → W → Outcome Dict * W;
  zones_post : Dict → W → Outcome unit * W;
  zone_put : string → Dict → W → Outcome unit * W;
  zone_delete : string → Dict → W → Outcome unit * W;
  sdn_put : Dict → W → Outcome unit * W
}.

(** The state of a run: the remote side and the calls issued so far. *)
Record Run (W : Type) : Type := {
  world : W;
  calls : list Call
}.
Arguments world {W} r.
Arguments calls {W} r.

(** How a run ends: with a value, or in [module.fail_json(msg=...)], which
    exits the process. *)
Inductive Res (A : Type) : Type :=
  | Done (a : A)
  | FailJson (msg : string).
Arguments Done {A} a.
Arguments FailJson {A} msg.

#[global] Instance Exc_eq_dec : EqDecision Exc.
Proof. solve_decision. Defined.

#[global] Instance Outcome_eq_dec {A} `{EqDecision A} : EqDecision (Outcome A).
Proof. solve_decision. Defined.

#[global] Instance Call_eq_dec : EqDecision Call.
Proof. solve_decision. Defined.

#[global] Instance Run_eq_dec {W} `{EqDecision W} : EqDecision (Run W).
Proof. solve_decision. Defined.

#[global] Instance Res_eq_dec {A} `{EqDecision A} : EqDecision (Res A).
Proof. solve_decision. Defined.

Definition M (W A : Type) : Type := Run W → Res A * Run W.

Definition ret {W A} (a : A) : M W A := λ r, (Done a, r).

Definition bind {W A B} (c : M W A) (k : A → M W B) : M W B :=
  λ r, match c r with
       | (Done a, r') => k a r'
       | (FailJson msg, r') => (FailJson msg, r')
       end.

Definition fail_json {W A} (msg : string) : M W A := λ r, (FailJson msg, r).

Notation "x <- c ;; k" := (bind c (λ x, k))
  (at level 100, c at next level, right associativity, only parsing).

(** Issue a call: it is appended to the trace and answered by the remote
    side; [try_] hands the outcome to the code after the [try]. *)
Definition try_ {W A} (c : Call) (f : W → Outcome A * W) : M W (Outcome A) :=
  λ r, let '(o, w) := f (world r) in
       (Done o, {| world := w; calls := calls r ++ [c] |}).

Definition Result3 : Type := bool * option Dict * string.

Record ExitJson : Type := {
  changed : bool;
  msg : string;
  sdn_zone : option Dict;
  sdn_configuration_applied : option bool
}.

#[global] Instance ExitJson_eq_dec : EqDecision ExitJson.
Proof. solve_decision. Defined.

Section Module.
Context {W : Type} `{!Api W}.

(** [apply_sdn_configuration] of [module_utils/sdn.py]. *)
Definition apply_sdn_configuration (check_mode : bool) : M W bool :=
  if check_mode then ret false
  else
    o <- try_ (SdnPut {[ "apply" := VInt 1 ]}) (sdn_put {[ "apply" := VInt 1 ]}) ;;
    match o with
    | Raised exc =>
        fail_json ("Failed to apply SDN configuration: " +:+ to_native exc)
    | Returned _ => ret true
    end.

Definition get_zone (zone_name : string) : M W (option Dict) :=
  o <- try_ (ZoneGet zone_name) (zone_get zone_name) ;;
  match o with
  | Returned z => ret (Some z)
  | Raised (ResourceException status text as exc) =>
      if bool_decide (status = Some 404) || str_in "404" (to_native exc)
      then ret None
      else fail_json ("Failed to retrieve SDN zone '" +:+ zone_name
                      +:+ "': " +:+ to_native exc)
  | Raised exc =>
      fail_json ("Failed to retrieve SDN zone '" +:+ zone_name
                 +:+ "': " +:+ to_native exc)
  end.

Definition ensure_present (module : AnsibleModule) : M W Result3 :=
  let zone_name := zone (params module) in
  let zone_type := type (params module) in
  let lock_token := lock_token (params module) in
  let desired_payload := build_payload (params module) in
  existing_zone <- get_zone zone_name ;;
  if negb (zone_truthy existing_zone) then
    let create_payload :=
      <["type" := of_opt_str zone_type]>
        (<["zone" := VStr zone_name]> desired_payload) in
    let create_payload :=
      if str_truthy lock_token
      then <["lock-token" := of_opt_str lock_token]> create_payload
      else create_payload in
    if check_mode module then
      ret (true, Some create_payload,
           "SDN zone '" +:+ zone_name +:+ "' would be created (check mode).")
    else
      o <- try_ (ZonesPost create_payload) (zones_post create_payload) ;;
      _ <- match o with
           | Raised exc =>
               fail_json ("Failed to create SDN zone '" +:+ zone_name
                          +:+ "': " +:+ to_native exc)
           | Returned _ => ret tt
           end ;;
      new_zone <- get_zone zone_name ;;
      ret (true, new_zone, "SDN zone '" +:+ zone_name +:+ "' created.")
  else
    let existing := default ∅ existing_zone in
    _ <- (if str_truthy zone_type
             && bool_decide (py_str (dict_get existing "type")
                             ≠ py_str (of_opt_str zone_type))
          then fail_json
                 ("SDN zone '" +:+ zone_name +:+ "' already exists with type '"
                  +:+ py_str (dict_get existing "type")
                  +:+ "' which does not match the requested type '"
                  +:+ py_str (of_opt_str zone_type) +:+ "'")
          else ret tt) ;;
    let updates := build_updates existing desired_payload in
    if bool_decide (updates = ∅) then
      ret (false, existing_zone,
           "SDN zone '" +:+ zone_name +:+ "' already present.")
    else
      let updates :=
        if str_truthy lock_token
        then <["lock-token" := of_opt_str lock_token]> updates
        else updates in
      if check_mode module then
        ret (true, existing_zone,
             "SDN zone '" +:+ zone_name +:+ "' would be updated (check mode).")
      else
        o <- try_ (ZonePut zone_name updates) (zone_put zone_name updates) ;;
        _ <- match o with
             | Raised exc =>
                 fail_json ("Failed to update SDN zone '" +:+ zone_name
                            +:+ "': " +:+ to_native exc)
             | Returned _ => ret tt
             end ;;
        new_zone <- get_zone zone_name ;;
        ret (true, new_zone, "SDN zone '" +:+ zone_name +:+ "' updated.").

Definition ensure_absent (module : AnsibleModule) : M W Result3 :=
  let zone_name := zone (params module) in
  let lock_token := lock_token (params module) in
  existing_zone <- get_zone zone_name ;;
  if negb (zone_truthy existing_zone) then
    ret (false, None, "SDN zone '" +:+ zone_name +:+ "' already absent.")
  else if check_mode module then
    ret (true, existing_zone,
         "SDN zone '" +:+ zone_name +:+ "' would be removed (check mode).")
  else
    let delete_kwargs : Dict := ∅ in
    let delete_kwargs :=
      if str_truthy lock_token
      then <["lock-token" := of_opt_str lock_token]> delete_kwargs
      else delete_kwargs in
    o <- try_ (ZoneDelete zone_name delete_kwargs)
              (zone_delete zone_name delete_kwargs) ;;
    _ <- match o with
         | Raised exc =>
             fail_json ("Failed to remove SDN zone '" +:+ zone_name
                        +:+ "': " +:+ to_native exc)
         | Returned _ => ret tt
         end ;;
    ret (true, None, "SDN zone '" +:+ zone_name +:+ "' removed.").

(** [main], from the dispatch on [state] to [exit_json]. *)
Definition main (module : AnsibleModule) : M W ExitJson :=
  let state := state (params module) in
  result <- (if String.eqb state "present"
             then ensure_present module
             else ensure_absent module) ;;
  let '(changed, zone_data, message) := result in
  applied <- (if changed : bool
              then apply_sdn_configuration (check_mode module)
              else ret false) ;;
  ret {| changed := changed;
         msg := message;
         sdn_zone := zone_data;
         sdn_configuration_applied := if applied : bool then Some true else None |}.

End Module.

(** The calls a computation adds to the trace of the run it starts from. *)
Definition issued {W A} (c : M W A) (r : Run W) : list Call :=
  drop (length (calls r)) (calls (c r).2).

(** A run that starts with an empty trace. *)
Definition fresh {W} (w : W) : Run W := {| world := w; calls := [] |}.

(** The exceptions that [get_zone] reads as "no such zone". *)
Definition not_found (exc : Exc) : bool :=
  match exc with
  | ResourceException status text =>
      bool_decide (status = Some 404) || str_in "404" text
  | OtherException _ => false
  end.

(** The step of [main] that reconciles: the branch on [state]. *)
Definition reconcile {W} `{!Api W} (module : AnsibleModule) : M W Result3 :=
  if String.eqb (state (params module)) "present"
  then ensure_present module
  else ensure_absent module.

(** ** Two transports to run the module against *)

(** A mock in the manner of the unit tests: the fetches answer from a
    prepared list (the [side_effect] of the tests), every other call answers
    with [mutation], the outcome prepared for it. *)
Record Mock : Type := {
  side_effect : list (Outcome Dict);
  mutation : Outcome unit
}.

#[global] Instance Mock_eq_dec : EqDecision Mock.
Proof. solve_decision. Defined.

Definition mock_get (m : Mock) : Outcome Dict * Mock :=
  match side_effect m with
  | o :: rest => (o, {| side_effect := rest; mutation := mutation m |})
  | [] => (Raised (OtherException "StopIteration"), m)
  end.

#[global] Instance mock_api : Api Mock := {|
  zone_get := λ _ m, mock_get m;
  zones_post := λ _ m, (mutation m, m);
  zone_put := λ _ _ m, (mutation m, m);
  zone_delete := λ _ _ m, (mutation m, m);
  sdn_put := λ _ m, (mutation m, m)
|}.

(** A cluster that keeps what it is sent, after section 6 of the spec
    ([fetch], [create], [update], [delete], [commitPending]): the zones by
    identifier and the number of applies.  The lock token is an argument of
    the call, not a field of the zone. *)
Record Cluster : Type := {
  zones : gmap string Dict;
  applies : nat
}.

#[global] Instance Cluster_eq_dec : EqDecision Cluster.
Proof. solve_decision. Defined.

Definition cluster_get (zone_name : string) (c : Cluster) : Outcome Dict * Cluster :=
  match zones c !! zone_name with
  | Some z => (Returned z, c)
  | None =>
      (Raised (ResourceException (Some 404) "404 Not Found: no such zone"), c)
  end.

Definition cluster_post (kwargs : Dict) (c : Cluster) : Outcome unit * Cluster :=
  match kwargs !! "zone" with
  | Some (VStr zone_name) =>
      match zones c !! zone_name with
      | Some _ =>
          (Raised (ResourceException (Some 500) "500 zone already defined"), c)
      | None =>
          (Returned tt,
           {| zones := <[zone_name := delete "lock-token" kwargs]> (zones c);
              applies := applies c |})
      end
  | _ => (Raised (ResourceException (Some 400) "400 Parameter verification failed"), c)
  end.

Definition cluster_put (zone_name : string) (kwargs : Dict) (c : Cluster)
    : Outcome unit * Cluster :=
  match zones c !! zone_name with
  | Some z =>
      (Returned tt,
       {| zones := <[zone_name := delete "lock-token" kwargs ∪ z]> (zones c);
          applies := applies c |})
  | None =>
      (Raised (ResourceException (Some 500) "500 zone does not exist"), c)
  end.

Definition cluster_delete (zone_name : string) (kwargs : Dict) (c : Cluster)
    : Outcome unit * Cluster :=
  match zones c !! zone_name with
  | Some _ =>
      (Returned tt,
       {| zones := delete zone_name (zones c); applies := applies c |})
  | None =>
      (Raised (ResourceException (Some 500) "500 zone does not exist"), c)
  end.

#[global] Instance cluster_api : Api Cluster := {|
  zone_get := cluster_get;
  zones_post := cluster_post;
  zone_put := cluster_put;
  zone_delete := cluster_delete;
  sdn_put := λ _ c, (Returned tt, {| zones := zones c; applies := S (applies c) |})
|}.

(** ** Sample inputs *)

(** No option set: zone [tenant01] of type [evpn], target [present]. *)
Definition bare_params : Params := {|
  zone := "tenant01"; type := Some "evpn"; state := "present";
  lock_token := None;
  advertise_subnets := None; bridge := None;
  bridge_disable_mac_learning := None; controller := None; dhcp := None;
  disable_arp_nd_suppression := None; dns := None; dnszone := None;
  dp_id := None; exitnodes := None; exitnodes_local_routing := None;
  exitnodes_primary := None; fabric := None; ipam := None; mac := None;
  mtu := None; nodes := None; peers := None; reversedns := None;
  rt_import := None; tag := None; vlan_protocol := None; vrf_vxlan := None;
  vxlan_port := None |}.

(** The parameters of the unit tests' fixture. *)
Definition test_params : Params := {|
  zone := "tenant01"; type := Some "evpn"; state := "present";
  lock_token := None;
  advertise_subnets := Some true; bridge := None;
  bridge_disable_mac_learning := None; controller := Some "frr01";
  dhcp := None; disable_arp_nd_suppression := None; dns := None;
  dnszone := None; dp_id := None; exitnodes := None;
  exitnodes_local_routing := None; exitnodes_primary := None;
  fabric := Some "fabric01"; ipam := None; mac := None; mtu := Some 1400;
  nodes := None; peers := None; reversedns := None; rt_import := None;
  tag := None; vlan_protocol := None; vrf_vxlan := None; vxlan_port := None |}.

(** The zone the fixture describes, as the backend reports it. *)
Definition test_zone : Dict :=
  <["zone" := VStr "tenant01"]> (<["type" := VStr "evpn"]>
  (<["controller" := VStr "frr01"]> (<["fabric" := VStr "fabric01"]>
  (<["mtu" := VInt 1400]> (<["advertise-subnets" := VInt 1]> ∅))))).

Definition with_state (s : string) (p : Params) : Params := {|
  zone := zone p; type := type p; state := s; lock_token := lock_token p;
  advertise_subnets := advertise_subnets p; bridge := bridge p;
  bridge_disable_mac_learning := bridge_disable_mac_learning p;
  controller := controller p; dhcp := dhcp p;
  disable_arp_nd_suppression := disable_arp_nd_suppression p; dns := dns p;
  dnszone := dnszone p; dp_id := dp_id p; exitnodes := exitnodes p;
  exitnodes_local_routing := exitnodes_local_routing p;
  exitnodes_primary := exitnodes_primary p; fabric := fabric p;
  ipam := ipam p; mac := mac p; mtu := mtu p; nodes := nodes p;
  peers := peers p; reversedns := reversedns p; rt_import := rt_import p;
  tag := tag p; vlan_protocol := vlan_protocol p; vrf_vxlan := vrf_vxlan p;
  vxlan_port := vxlan_port p |}.

Definition with_lock_token (t : option string) (p : Params) : Params := {|
  zone := zone p; type := type p; state := state p; lock_token := t;
  advertise_subnets := advertise_subnets p; bridge := bridge p;
  bridge_disable_mac_learning := bridge_disable_mac_learning p;
  controller := controller p; dhcp := dhcp p;
  disable_arp_nd_suppression := disable_arp_nd_suppression p; dns := dns p;
  dnszone := dnszone p; dp_id := dp_id p; exitnodes := exitnodes p;
  exitnodes_local_routing := exitnodes_local_routing p;
  exitnodes_primary := exitnodes_primary p; fabric := fabric p;
  ipam := ipam p; mac := mac p; mtu := mtu p; nodes := nodes p;
  peers := peers p; reversedns := reversedns p; rt_import := rt_import p;
  tag := tag p; vlan_protocol := vlan_protocol p; vrf_vxlan := vrf_vxlan p;
  vxlan_port := vxlan_port p |}.

Definition with_mtu (n : option Z) (p : Params) : Params := {|
  zone := zone p; type := type p; state := state p; lock_token := lock_token p;
  advertise_subnets := advertise_subnets p; bridge := bridge p;
  bridge_disable_mac_learning := bridge_disable_mac_learning p;
  controller := controller p; dhcp := dhcp p;
  disable_arp_nd_suppression := disable_arp_nd_suppression p; dns := dns p;
  dnszone := dnszone p; dp_id := dp_id p; exitnodes := exitnodes p;
  exitnodes_local_routing := exitnodes_local_routing p;
  exitnodes_primary := exitnodes_primary p; fabric := fabric p;
  ipam := ipam p; mac := mac p; mtu := n; nodes := nodes p;
  peers := peers p; reversedns := reversedns p; rt_import := rt_import p;
  tag := tag p; vlan_protocol := vlan_protocol p; vrf_vxlan := vrf_vxlan p;
  vxlan_port := vxlan_port p |}.

Definition with_bridge (b : option string) (p : Params) : Params := {|
  zone := zone p; type := type p; state := state p; lock_token := lock_token p;
  advertise_subnets := advertise_subnets p; bridge := b;
  bridge_disable_mac_learning := bridge_disable_mac_learning p;
  controller := controller p; dhcp := dhcp p;
  disable_arp_nd_suppression := disable_arp_nd_suppression p; dns := dns p;
  dnszone := dnszone p; dp_id := dp_id p; exitnodes := exitnodes p;
  exitnodes_local_routing := exitnodes_local_routing p;
  exitnodes_primary := exitnodes_primary p; fabric := fabric p;
  ipam := ipam p; mac := mac p; mtu := mtu p; nodes := nodes p;
  peers := peers p; reversedns := reversedns p; rt_import := rt_import p;
  tag := tag p; vlan_protocol := vlan_protocol p; vrf_vxlan := vrf_vxlan p;
  vxlan_port := vxlan_port p |}.

(** A mock whose fetches answer with [gets] and whose other calls succeed. *)
Definition mock (gets : list (Outcome Dict)) : Mock :=
  {| side_effect := gets; mutation := Returned tt |}.

(** What [build_payload] stores for an option: nothing when the parameter
    is [None], its value (coerced when boolean) otherwise. *)
Definition desired_value (p : Params) (opt : string) : option PyVal :=
  match params_get p opt with
  | VNone => None
  | v => Some (if bool_decide (opt ∈ BOOLEAN_OPTIONS)
               then ansible_to_proxmox_bool v else v)
  end.

(** The keyword arguments [ensure_present] and [ensure_absent] build for
    their calls, for stating what the trace holds: the create payload, the
    update payload for a fetched zone, and the arguments of the delete. *)
Definition lock_field (p : Params) : option PyVal :=
  if str_truthy (lock_token p) then Some (of_opt_str (lock_token p)) else None.

Definition create_payload_of (module : AnsibleModule) : Dict :=
  let p := params module in
  let create_payload :=
    <["type" := of_opt_str (type p)]>
      (<["zone" := VStr (zone p)]> (build_payload p)) in
  if str_truthy (lock_token p)
  then <["lock-token" := of_opt_str (lock_token p)]> create_payload
  else create_payload.

Definition update_payload_of (module : AnsibleModule) (existing : Dict) : Dict :=
  let p := params module in
  let updates := build_updates existing (build_payload p) in
  if str_truthy (lock_token p)
  then <["lock-token" := of_opt_str (lock_token p)]> updates
  else updates.

Definition delete_kwargs_of (module : AnsibleModule) : Dict :=
  if str_truthy (lock_token (params module))
  then <["lock-token" := of_opt_str (lock_token (params module))]> ∅
  else ∅.

(** The test of [ensure_present] on the type of a fetched zone: a supplied
    type whose [str()] differs from that of the observed one. *)
Definition type_conflict (module : AnsibleModule) (existing : Dict) : bool :=
  str_truthy (type (params module))
  && bool_decide (py_str (dict_get existing "type")
                  ≠ py_str (of_opt_str (type (params module)))).

(** A stored zone on which [ensure_present] has nothing left to do. *)
Definition settled (module : AnsibleModule) (d : Dict) : Prop :=
  d ≠ ∅
  ∧ type_conflict module d = false
  ∧ build_updates d (build_payload (params module)) = ∅.

(** The keyword arguments of a call ([get()] has none). *)
Definition call_kwargs (c : Call) : Dict :=
  match c with
  | ZoneGet _ => ∅
  | ZonesPost kwargs => kwargs
  | ZonePut _ kwargs => kwargs
  | ZoneDelete _ kwargs => kwargs
  | SdnPut kwargs => kwargs
  end.

(** The call that applies the pending configuration. *)
Definition is_apply (c : Call) : bool :=
  match c with
  | SdnPut _ => true
  | _ => false
  end.

(** The calls that create, update or delete a zone. *)
Definition zone_mutation (c : Call) : bool :=
  match c with
  | ZonesPost _ | ZonePut _ _ | ZoneDelete _ _ => true
  | _ => false
  end.

(** A scripted transport for runs in which single calls fail: the fetches
    answer from [fetches] in turn, every other call takes the next of
    [answers], and returns when none is left. *)
Record Script : Type := {
  fetches : list (Outcome Dict);
  answers : list (Outcome unit)
}.

#[global] Instance Script_eq_dec : EqDecision Script.
Proof. solve_decision. Defined.

Definition script_get (s : Script) : Outcome Dict * Script :=
  match fetches s with
  | o :: rest => (o, {| fetches := rest; answers := answers s |})
  | [] => (Raised (OtherException "StopIteration"), s)
  end.

Definition script_answer (s : Script) : Outcome unit * Script :=
  match answers s with
  | o :: rest => (o, {| fetches := fetches s; answers := rest |})
  | [] => (Returned tt, s)
  end.

#[global] Instance script_api : Api Script := {|
  zone_get := λ _ s, script_get s;
  zones_post := λ _ s, script_answer s;
  zone_put := λ _ _ s, script_answer s;
  zone_delete := λ _ _ s, script_answer s;
  sdn_put := λ _ s, script_answer s
|}.

(** An entry of the parameters respects the argument spec: a boolean only
    under a boolean option, an integer or a string only under another. *)
Definition typed_entry (e : string * PyVal) : bool :=
  match e.2 with
  | VNone => true
  | VBool _ => bool_decide (e.1 ∈ BOOLEAN_OPTIONS)
  | VInt _ | VStr _ => negb (bool_decide (e.1 ∈ BOOLEAN_OPTIONS))
  end.

(** ** The scenarios of the unit tests, run on the model *)

Example test_ensure_present_creates_zone :
  ensure_present {| params := test_params; check_mode := false |}
    (fresh (mock [Raised (ResourceException (Some 404) "404 Not Found");
                  Returned {[ "zone" := VStr "tenant01"; "type" := VStr "evpn" ]}]))
  = (Done (true, Some {[ "zone" := VStr "tenant01"; "type" := VStr "evpn" ]},
           "SDN zone 'tenant01' created."),
     {| world := mock [];
        calls := [ZoneGet "tenant01"; ZonesPost test_zone; ZoneGet "tenant01"] |}).
Proof. apply (bool_decide_unpack _). by vm_compute. Qed.

Example test_ensure_present_updates_zone :
  ensure_present
    {| params := with_mtu (Some 1500) test_params; check_mode := false |}
    (fresh (mock [Returned test_zone;
                  Returned (<["mtu" := VInt 1500]> test_zone)]))
  = (Done (true, Some (<["mtu" := VInt 1500]> test_zone),
           "SDN zone 'tenant01' updated."),
     {| world := mock [];
        calls := [ZoneGet "tenant01";
                  ZonePut "tenant01" {[ "mtu" := VInt 1500 ]};
                  ZoneGet "tenant01"] |}).
Proof. apply (bool_decide_unpack _). by vm_compute. Qed.

Example test_ensure_present_no_change :
  ensure_present {| params := test_params; check_mode := false |}
    (fresh (mock [Returned test_zone]))
  = (Done (false, Some test_zone, "SDN zone 'tenant01' already present."),
     {| world := mock []; calls := [ZoneGet "tenant01"] |}).
Proof. apply (bool_decide_unpack _). by vm_compute. Qed.

Example test_ensure_absent_removes_zone :
  ensure_absent
    {| params := with_state "absent" test_params; check_mode := false |}
    (fresh (mock [Returned {[ "zone" := VStr "tenant01" ]}]))
  = (Done (true, None, "SDN zone 'tenant01' removed."),
     {| world := mock [];
        calls := [ZoneGet "tenant01"; ZoneDelete "tenant01" ∅] |}).
Proof. apply (bool_decide_unpack _). by vm_compute. Qed.

Example test_main_applies_configuration :
  main {| params := test_params; check_mode := false |}
    (fresh (mock [Raised (ResourceException (Some 404) "404 Not Found");
                  Returned {[ "zone" := VStr "tenant01" ]}]))
  = (Done {| changed := true;
             msg := "SDN zone 'tenant01' created.";
             sdn_zone := Some {[ "zone" := VStr "tenant01" ]};
             sdn_configuration_applied := Some true |},
     {| world := mock [];
        calls := [ZoneGet "tenant01"; ZonesPost test_zone; ZoneGet "tenant01";
                  SdnPut {[ "apply" := VInt 1 ]}] |}).
Proof. apply (bool_decide_unpack _). by vm_compute. Qed.

Example test_main_skip_apply_when_unchanged :
  main {| params := test_params; check_mode := false |}
    (fresh (mock [Returned test_zone]))
  = (Done {| changed := false;
             msg := "SDN zone 'tenant01' already present.";
             sdn_zone := Some test_zone;
             sdn_configuration_applied := None |},
     {| world := mock []; calls := [ZoneGet "tenant01"] |}).
Proof. apply (bool_decide_unpack _). by vm_compute. Qed.

Example test_apply_sdn_configuration_check_mode :
  apply_sdn_configuration true (fresh (mock [])) = (Done false, fresh (mock [])).
Proof. reflexivity. Qed.

Example test_apply_sdn_configuration_executes :
  apply_sdn_configuration false (fresh (mock []))
  = (Done true,
     {| world := mock []; calls := [SdnPut {[ "apply" := VInt 1 ]}] |}).
Proof. apply (bool_decide_unpack _). by vm_compute. Qed.

(** ** Strings *)

Lemma append_nil (t : string) : "" +:+ t = t.
Proof. reflexivity. Qed.

Lemma append_cons a (s t : string) : String a s +:+ t = String a (s +:+ t).
Proof. reflexivity. Qed.

Lemma prefix_split (sub s : string) :
  String.prefix sub s = true ↔ ∃ post, s = sub +:+ post.
Proof.
  revert s. induction sub as [|a sub IH]; intros [|b s]; simpl.
  - split; [intros _; by exists "" | done].
  - split; [intros _; by exists (String b s) | done].
  - split; [done | intros [post H]; discriminate].
  - destruct (Ascii.ascii_dec a b) as [->|Hab].
    + rewrite IH. split; intros [post H]; exists post;
        rewrite append_cons in *; congruence.
    + split; [done | intros [post H]; rewrite append_cons in H; congruence].
Qed.

Lemma str_in_cons sub a (s : string) :
  str_in sub (String a s) = String.prefix sub (String a s) || str_in sub s.
Proof. reflexivity. Qed.

(** [str_in sub s] holds exactly when [sub] occurs in [s]. *)
Lemma str_in_spec (sub s : string) :
  str_in sub s = true ↔ ∃ pre post, s = pre +:+ sub +:+ post.
Proof.
  induction s as [|a s IH].
  - change (str_in sub "") with (String.prefix sub "" || false).
    rewrite orb_false_r. split.
    + intros H. apply prefix_split in H as [post H]. by exists "", post.
    + intros [pre [post H]]. apply prefix_split.
      destruct pre; [by exists post | discriminate].
  - rewrite str_in_cons, orb_true_iff. split.
    + intros [H|H].
      * apply prefix_split in H as [post H]. by exists "", post.
      * apply IH in H as [pre [post H]]. exists (String a pre), post.
        rewrite append_cons. by rewrite H.
    + intros [pre [post H]]. destruct pre as [|b pre].
      * left. apply prefix_split. by exists post.
      * right. apply IH. exists pre, post. rewrite append_cons in H.
        congruence.
Qed.

Lemma str_truthy_Some (t : string) :
  str_truthy (Some t) = true ↔ t ≠ "".
Proof.
  simpl. rewrite negb_true_iff. split.
  - intros H ->. discriminate.
  - intros H. apply String.eqb_neq. done.
Qed.

Lemma type_choices_truthy (t : string) :
  t ∈ type_choices → str_truthy (Some t) = true.
Proof.
  unfold type_choices. intros H.
  repeat (apply elem_of_cons in H as [->|H]; [reflexivity|]).
  by apply elem_of_nil in H.
Qed.

(** ** The payload *)

Lemma build_payload_step_eq p payload option api_field :
  build_payload_step p payload (option, api_field) =
  match desired_value p option with
  | Some v => <[api_field := v]> payload
  | None => payload
  end.
Proof.
  unfold build_payload_step, desired_value.
  by destruct (params_get p option).
Qed.

Lemma fold_payload_cons p o a (items : list (string * string)) (acc : Dict) :
  fold_left (build_payload_step p) ((o, a) :: items) acc =
  fold_left (build_payload_step p) items
    (match desired_value p o with
     | Some v => <[a := v]> acc
     | None => acc
     end).
Proof. by rewrite <- build_payload_step_eq. Qed.

Lemma fold_payload_other p (items : list (string * string)) (acc : Dict) f :
  f ∉ items.*2 →
  fold_left (build_payload_step p) items acc !! f = acc !! f.
Proof.
  revert acc. induction items as [|[o a] items IH]; intros acc Hf; [done|].
  rewrite fmap_cons in Hf. apply not_elem_of_cons in Hf as [Hne Hf].
  rewrite fold_payload_cons, IH by done.
  destruct (desired_value p o); [|done]. by rewrite lookup_insert_ne.
Qed.

Lemma fold_payload_field p (items : list (string * string)) (acc : Dict) o f :
  NoDup items.*2 → (o, f) ∈ items →
  fold_left (build_payload_step p) items acc !! f =
  match desired_value p o with Some v => Some v | None => acc !! f end.
Proof.
  revert acc. induction items as [|[o' a] items IH]; intros acc Hnd Hin.
  - by apply elem_of_nil in Hin.
  - rewrite fmap_cons in Hnd. apply NoDup_cons in Hnd as [Hnotin Hnd].
    rewrite fold_payload_cons.
    apply elem_of_cons in Hin as [Heq|Hin].
    + injection Heq as <- <-. rewrite fold_payload_other by done.
      destruct (desired_value p o); [by rewrite lookup_insert_eq | done].
    + rewrite IH by done.
      destruct (desired_value p o) as [v|]; [done|].
      destruct (desired_value p o'); [|done].
      rewrite lookup_insert_ne; [done|].
      intros ->. apply Hnotin. apply list_elem_of_fmap. by exists (o, f).
Qed.

Lemma ZONE_OPTION_MAP_fields_NoDup : NoDup ZONE_OPTION_MAP.*2.
Proof. apply (bool_decide_unpack _). by vm_compute. Qed.

Lemma ZONE_OPTION_MAP_options_NoDup : NoDup ZONE_OPTION_MAP.*1.
Proof. apply (bool_decide_unpack _). by vm_compute. Qed.

(** The payload holds, under the field of each option, the option's desired
    value, and nothing under any other key. *)
Lemma build_payload_field p option api_field :
  (option, api_field) ∈ ZONE_OPTION_MAP →
  build_payload p !! api_field = desired_value p option.
Proof.
  intros Hin. unfold build_payload.
  rewrite (fold_payload_field p _ _ option)
    by auto using ZONE_OPTION_MAP_fields_NoDup.
  by destruct (desired_value p option).
Qed.

Lemma build_payload_other p key :
  key ∉ ZONE_OPTION_MAP.*2 → build_payload p !! key = None.
Proof. intros H. unfold build_payload. by rewrite fold_payload_other. Qed.

Lemma build_payload_Some p key v :
  build_payload p !! key = Some v →
  ∃ option, (option, key) ∈ ZONE_OPTION_MAP ∧ desired_value p option = Some v.
Proof.
  intros H. destruct (decide (key ∈ ZONE_OPTION_MAP.*2)) as [Hin|Hnot].
  - apply list_elem_of_fmap in Hin as [[o f] [-> Hin]]. exists o.
    split; [done|]. by rewrite <- (build_payload_field p o f).
  - by rewrite build_payload_other in H.
Qed.

Lemma reserved_keys_not_fields :
  ("zone" ∉ ZONE_OPTION_MAP.*2) ∧ ("type" ∉ ZONE_OPTION_MAP.*2)
  ∧ ("lock-token" ∉ ZONE_OPTION_MAP.*2).
Proof. repeat split; apply (bool_decide_unpack _); by vm_compute. Qed.

(** A desired value is never [None]. *)
Lemma desired_value_not_None p option : desired_value p option ≠ Some VNone.
Proof.
  unfold desired_value.
  destruct (params_get p option) as [|[]| |]; try done;
    by destruct (bool_decide _).
Qed.

(** ** The diff *)

(** [build_updates] keeps exactly the desired entries whose [str()] differs
    from the [str()] of what [existing.get] gives for the field. *)
Lemma build_updates_lookup (existing desired : Dict) key :
  build_updates existing desired !! key =
  match desired !! key with
  | Some v =>
      if bool_decide (py_str (dict_get existing key) ≠ py_str v)
      then Some v else None
  | None => None
  end.
Proof.
  unfold build_updates. revert key.
  apply (map_fold_weak_ind (λ (updates desired : Dict), ∀ key,
    updates !! key =
    match desired !! key with
    | Some v =>
        if bool_decide (py_str (dict_get existing key) ≠ py_str v)
        then Some v else None
    | None => None
    end)).
  - intros key. by rewrite !lookup_empty.
  - intros i x m r Hi IH key. unfold build_updates_step.
    destruct (decide (i = key)) as [->|Hne].
    + rewrite lookup_insert_eq. case_bool_decide.
      * by rewrite lookup_insert_eq.
      * by rewrite IH, Hi.
    + rewrite (lookup_insert_ne m) by done. case_bool_decide.
      * rewrite lookup_insert_ne by done. apply IH.
      * apply IH.
Qed.

Lemma build_updates_Some (existing desired : Dict) key v :
  build_updates existing desired !! key = Some v ↔
  desired !! key = Some v ∧ py_str (dict_get existing key) ≠ py_str v.
Proof.
  rewrite build_updates_lookup. destruct (desired !! key) as [w|].
  - case_bool_decide as Hne; split.
    + intros [= ->]. done.
    + intros [[= ->] _]. done.
    + done.
    + intros [[= ->] H]. done.
  - split; [done | by intros [? _]].
Qed.

Lemma build_updates_empty (existing desired : Dict) :
  build_updates existing desired = ∅ ↔
  ∀ key v, desired !! key = Some v →
           py_str (dict_get existing key) = py_str v.
Proof.
  rewrite map_empty. split.
  - intros H key v Hd. specialize (H key).
    rewrite build_updates_lookup, Hd in H.
    destruct (decide (py_str (dict_get existing key) = py_str v)) as [|Hne];
      [done|]. by rewrite bool_decide_eq_true_2 in H.
  - intros H key. rewrite build_updates_lookup.
    destruct (desired !! key) as [v|] eqn:Hd; [|done].
    rewrite bool_decide_eq_false_2; [done|]. intros Hne. by apply Hne, H.
Qed.

(** ** The keyword arguments of the calls *)

Lemma create_payload_lock module :
  create_payload_of module !! "lock-token" = lock_field (params module).
Proof.
  unfold create_payload_of, lock_field.
  destruct (str_truthy (lock_token (params module))).
  - by rewrite lookup_insert_eq.
  - rewrite !lookup_insert_ne by done.
    apply build_payload_other, reserved_keys_not_fields.
Qed.

Lemma create_payload_field module key :
  key ∈ ZONE_OPTION_MAP.*2 →
  create_payload_of module !! key = build_payload (params module) !! key.
Proof.
  intros Hin. destruct reserved_keys_not_fields as (Hz & Ht & Hl).
  unfold create_payload_of.
  destruct (str_truthy (lock_token (params module)));
    rewrite !lookup_insert_ne; try done; by intros <-.
Qed.

Lemma build_updates_other existing (p : Params) key :
  key ∉ ZONE_OPTION_MAP.*2 →
  build_updates existing (build_payload p) !! key = None.
Proof.
  intros H. by rewrite build_updates_lookup, build_payload_other.
Qed.

Lemma update_payload_lock module existing :
  update_payload_of module existing !! "lock-token" = lock_field (params module).
Proof.
  unfold update_payload_of, lock_field.
  destruct (str_truthy (lock_token (params module))).
  - by rewrite lookup_insert_eq.
  - apply build_updates_other, reserved_keys_not_fields.
Qed.

Lemma update_payload_other module existing key :
  key ≠ "lock-token" →
  update_payload_of module existing !! key =
  build_updates existing (build_payload (params module)) !! key.
Proof.
  intros Hne. unfold update_payload_of.
  destruct (str_truthy (lock_token (params module))); [|done].
  by rewrite lookup_insert_ne.
Qed.

Lemma delete_kwargs_lock module :
  delete_kwargs_of module !! "lock-token" = lock_field (params module).
Proof.
  unfold delete_kwargs_of, lock_field.
  destruct (str_truthy (lock_token (params module)));
    [by rewrite lookup_insert_eq | done].
Qed.

Lemma delete_kwargs_other module key :
  key ≠ "lock-token" → delete_kwargs_of module !! key = None.
Proof.
  intros Hne. unfold delete_kwargs_of.
  destruct (str_truthy (lock_token (params module))); [|done].
  by rewrite lookup_insert_ne.
Qed.

(** ** Runs of the module *)

(** Case analysis on the answers of the remote side and on the tests of the
    code, in the order in which they come up. *)
Ltac api_cases :=
  repeat match goal with
  | |- context [zone_get ?z ?w] =>
      destruct (zone_get z w) as [[?|[? ?|?]] ?] eqn:?
  | |- context [zones_post ?k ?w] =>
      destruct (zones_post k w) as [[[]|?] ?] eqn:?
  | |- context [zone_put ?z ?k ?w] =>
      destruct (zone_put z k w) as [[[]|?] ?] eqn:?
  | |- context [zone_delete ?z ?k ?w] =>
      destruct (zone_delete z k w) as [[[]|?] ?] eqn:?
  | |- context [sdn_put ?k ?w] =>
      destruct (sdn_put k w) as [[[]|?] ?] eqn:?
  | |- context [if ?b then _ else _] => destruct b eqn:?
  | _ => progress cbn [fst snd world calls negb zone_truthy default from_option]
  end.

Ltac unfold_run :=
  unfold main, reconcile, ensure_present, ensure_absent,
    apply_sdn_configuration, get_zone, bind, try_, ret, fail_json;
  cbn [fst snd world calls].

Section Runs.
Context {W : Type} `{!Api W}.

(** The run of [get_zone]: one fetch; a returned zone is the result, a
    "not found" exception gives [None], any other exception ends the run
    in [fail_json]. *)
Lemma get_zone_run (zone_name : string) (r : Run W) :
  get_zone zone_name r =
  let r' := {| world := (zone_get zone_name (world r)).2;
               calls := calls r ++ [ZoneGet zone_name] |} in
  match (zone_get zone_name (world r)).1 with
  | Returned z => (Done (Some z), r')
  | Raised exc =>
      if not_found exc then (Done None, r')
      else (FailJson ("Failed to retrieve SDN zone '" +:+ zone_name
                      +:+ "': " +:+ to_native exc), r')
  end.
Proof.
  unfold get_zone, bind, try_, ret, fail_json, not_found.
  destruct (zone_get zone_name (world r)) as [[z|[status text|text]] w];
    simpl; try done.
  by destruct (bool_decide (status = Some 404) || str_in "404" text).
Qed.

Lemma issued_app {A} (c : M W A) (r : Run W) (new : list Call) :
  calls (c r).2 = calls r ++ new → issued c r = new.
Proof. unfold issued. intros ->. apply drop_app_length. Qed.

(** The calls of [ensure_present]: the fetch alone; or, outside check
    mode, the fetch, the create and maybe the second fetch; or, outside
    check mode and for a fetched zone, the fetch, the update and maybe the
    second fetch. *)
Lemma ensure_present_issued module (r : Run W) :
  let zone_name := zone (params module) in
  issued (ensure_present module) r = [ZoneGet zone_name]
  ∨ (check_mode module = false
     ∧ ∃ tail, issued (ensure_present module) r
               = ZoneGet zone_name :: ZonesPost (create_payload_of module) :: tail
               ∧ (tail = [] ∨ tail = [ZoneGet zone_name]))
  ∨ (check_mode module = false
     ∧ ∃ existing tail,
         (zone_get zone_name (world r)).1 = Returned existing
         ∧ issued (ensure_present module) r
           = ZoneGet zone_name
             :: ZonePut zone_name (update_payload_of module existing) :: tail
         ∧ (tail = [] ∨ tail = [ZoneGet zone_name])).
Proof.
  intros zone_name. subst zone_name. destruct r as [w cs].
  unfold create_payload_of, update_payload_of, issued.
  unfold_run. api_cases.
  all: rewrite <- ?app_assoc, drop_app_length; cbn [app].
  all: try (by left).
  all: try (right; left; split; [done|]; eexists; split; [done|]; by auto).
  all: right; right; split; [done|]; do 2 eexists;
       split; [done|]; split; [done|]; by auto.
Qed.

(** The calls of [ensure_absent]: the fetch alone, or, outside check
    mode, the fetch and the delete. *)
Lemma ensure_absent_issued module (r : Run W) :
  let zone_name := zone (params module) in
  issued (ensure_absent module) r = [ZoneGet zone_name]
  ∨ (check_mode module = false
     ∧ issued (ensure_absent module) r
       = [ZoneGet zone_name; ZoneDelete zone_name (delete_kwargs_of module)]).
Proof.
  intros zone_name. subst zone_name. destruct r as [w cs].
  unfold delete_kwargs_of, issued. unfold_run. api_cases.
  all: rewrite <- ?app_assoc, drop_app_length; cbn [app].
  all: try (by left).
  all: by right.
Qed.

(** [main] runs the reconciler, then the committer exactly when the
    reconciler reported a change, then exits with the result. *)
Lemma main_run module (r : Run W) :
  main module r =
  match reconcile module r with
  | (FailJson e, r1) => (FailJson e, r1)
  | (Done (changed, zone_data, message), r1) =>
      if changed then
        match apply_sdn_configuration (check_mode module) r1 with
        | (Done applied, r2) =>
            (Done {| changed := true; msg := message; sdn_zone := zone_data;
                     sdn_configuration_applied :=
                       if applied then Some true else None |}, r2)
        | (FailJson e, r2) => (FailJson e, r2)
        end
      else
        (Done {| changed := false; msg := message; sdn_zone := zone_data;
                 sdn_configuration_applied := None |}, r1)
  end.
Proof.
  unfold main, reconcile, bind, ret.
  destruct (state (params module) =? "present")%string;
    (match goal with |- context [?f module r] => destruct (f module r) as [[[[[] z] m]|e] r1] end);
    try done;
    by destruct (apply_sdn_configuration (check_mode module) r1) as [[[]|] r2].
Qed.

(** The committer issues one call outside check mode and none in it. *)
Lemma apply_sdn_configuration_calls check (r : Run W) :
  calls (apply_sdn_configuration check r).2 =
  calls r ++ (if check then [] else [SdnPut {[ "apply" := VInt 1 ]}]).
Proof.
  unfold_run. destruct check; cbn [fst snd calls]; [by rewrite app_nil_r|].
  by destruct (sdn_put _ _) as [[[]|?] ?].
Qed.

Lemma ensure_present_calls module (r : Run W) :
  calls (ensure_present module r).2 = calls r ++ issued (ensure_present module) r.
Proof.
  destruct r as [w cs]. unfold issued. unfold_run. api_cases.
  all: by rewrite <- ?app_assoc, drop_app_length.
Qed.

Lemma ensure_absent_calls module (r : Run W) :
  calls (ensure_absent module r).2 = calls r ++ issued (ensure_absent module) r.
Proof.
  destruct r as [w cs]. unfold issued. unfold_run. api_cases.
  all: by rewrite <- ?app_assoc, drop_app_length.
Qed.

Lemma reconcile_calls module (r : Run W) :
  calls (reconcile module r).2 = calls r ++ issued (reconcile module) r.
Proof.
  unfold reconcile. destruct (_ =? _)%string;
    auto using ensure_present_calls, ensure_absent_calls.
Qed.

(** The calls of [main]: those of the reconciler, then the apply when the
    reconciler reported a change outside check mode. *)
Lemma main_issued module (r : Run W) :
  issued (main module) r = issued (reconcile module) r
  ∨ (check_mode module = false
     ∧ (∃ zone_data message r1,
          reconcile module r = (Done (true, zone_data, message), r1))
     ∧ issued (main module) r
       = issued (reconcile module) r ++ [SdnPut {[ "apply" := VInt 1 ]}]).
Proof.
  pose proof (reconcile_calls module r) as Hrec.
  unfold issued at 1 3. rewrite main_run.
  destruct (reconcile module r) as [[[[[] z] m]|e] r1]; cbn [snd] in Hrec.
  - pose proof (apply_sdn_configuration_calls (check_mode module) r1) as Happ.
    rewrite Hrec in Happ.
    destruct (apply_sdn_configuration (check_mode module) r1) as [[a|e] r2];
      cbn [snd] in *; rewrite Happ; destruct (check_mode module).
    all: try (left; by rewrite app_nil_r, drop_app_length).
    all: right; split; [done|]; split; [by eauto|].
    all: by rewrite <- app_assoc, drop_app_length.
  - left. cbn [snd]. by rewrite Hrec, drop_app_length.
  - left. cbn [snd]. by rewrite Hrec, drop_app_length.
Qed.

(** Every call of [main] is the fetch, or, outside check mode, the create
    with its payload, the update of the fetched zone with its payload, the
    delete with its arguments, or the apply. *)
Lemma ensure_present_call module (r : Run W) (c : Call) :
  c ∈ issued (ensure_present module) r →
  c = ZoneGet (zone (params module))
  ∨ (check_mode module = false
     ∧ (c = ZonesPost (create_payload_of module)
        ∨ ∃ existing,
            (zone_get (zone (params module)) (world r)).1 = Returned existing
            ∧ c = ZonePut (zone (params module))
                    (update_payload_of module existing))).
Proof.
  intros Hin.
  destruct (ensure_present_issued module r)
    as [Hi | [(Hc & tail & Hi & Ht) | (Hc & existing & tail & Hg & Hi & Ht)]];
    rewrite Hi in Hin; clear Hi.
  - apply list_elem_of_singleton in Hin. by left.
  - apply elem_of_cons in Hin as [->|Hin]; [by left|].
    apply elem_of_cons in Hin as [->|Hin]; [by right; split; [|left]|].
    destruct Ht as [-> | ->].
    + by apply elem_of_nil in Hin.
    + apply list_elem_of_singleton in Hin. by left.
  - apply elem_of_cons in Hin as [->|Hin]; [by left|].
    apply elem_of_cons in Hin as [->|Hin].
    { right. split; [done|]. right. by exists existing. }
    destruct Ht as [-> | ->].
    + by apply elem_of_nil in Hin.
    + apply list_elem_of_singleton in Hin. by left.
Qed.

Lemma ensure_absent_call module (r : Run W) (c : Call) :
  c ∈ issued (ensure_absent module) r →
  c = ZoneGet (zone (params module))
  ∨ (check_mode module = false
     ∧ c = ZoneDelete (zone (params module)) (delete_kwargs_of module)).
Proof.
  intros Hin.
  destruct (ensure_absent_issued module r) as [Hi | (Hc & Hi)];
    rewrite Hi in Hin; clear Hi.
  - apply list_elem_of_singleton in Hin. by left.
  - apply elem_of_cons in Hin as [->|Hin]; [by left|].
    apply list_elem_of_singleton in Hin. by right.
Qed.

Lemma main_call module (r : Run W) (c : Call) :
  c ∈ issued (main module) r →
  c = ZoneGet (zone (params module))
  ∨ (check_mode module = false
     ∧ (c = ZonesPost (create_payload_of module)
        ∨ (∃ existing,
             (zone_get (zone (params module)) (world r)).1 = Returned existing
             ∧ c = ZonePut (zone (params module))
                     (update_payload_of module existing))
        ∨ c = ZoneDelete (zone (params module)) (delete_kwargs_of module)
        ∨ c = SdnPut {[ "apply" := VInt 1 ]})).
Proof.
  intros Hin.
  assert (Hrec : c ∈ issued (reconcile module) r
                 ∨ (check_mode module = false
                    ∧ c = SdnPut {[ "apply" := VInt 1 ]})).
  { destruct (main_issued module r) as [Hi | (Hc & _ & Hi)];
      rewrite Hi in Hin; [by left|].
    apply elem_of_app in Hin as [Hin|Hin]; [by left|].
    apply list_elem_of_singleton in Hin. by right. }
  destruct Hrec as [Hrec | (Hc & ->)]; [|by right; auto 6].
  unfold reconcile in Hrec. destruct (_ =? _)%string.
  - apply ensure_present_call in Hrec as [->|(Hc & [->|(e & He & ->)])];
      [by left | by right; auto | right; split; [done|]].
    right. left. by exists e.
  - apply ensure_absent_call in Hrec as [->|(Hc & ->)];
      [by left | by right; auto 6].
Qed.

End Runs.

(** ** The fetch *)

(** C10. During a fetch, [get_zone] reports the zone as absent (it returns
    [None] and does not fail) exactly when the call raised a
    [ResourceException] whose status code is 404 or whose text contains
    ["404"]; every other exception ends the run in [fail_json]; a returned
    zone is passed on.  In particular a [ResourceException] with any status
    code whose text contains ["404"] counts as an absent zone. *)
Theorem get_zone_absent_iff {W : Type} `{!Api W} (zone_name : string) (r : Run W) :
  let answer := (zone_get zone_name (world r)).1 in
  let r' := {| world := (zone_get zone_name (world r)).2;
               calls := calls r ++ [ZoneGet zone_name] |} in
  (get_zone zone_name r = (Done None, r') ↔
     ∃ status text,
       answer = Raised (ResourceException status text)
       ∧ (status = Some 404 ∨ ∃ pre post, text = pre +:+ "404" +:+ post))
  ∧ (∀ status pre post,
       answer = Raised (ResourceException status (pre +:+ "404" +:+ post)) →
       get_zone zone_name r = (Done None, r'))
  ∧ (∀ exc,
       answer = Raised exc →
       ¬ (∃ status text,
            exc = ResourceException status text
            ∧ (status = Some 404 ∨ ∃ pre post, text = pre +:+ "404" +:+ post)) →
       get_zone zone_name r =
       (FailJson ("Failed to retrieve SDN zone '" +:+ zone_name
                  +:+ "': " +:+ to_native exc), r'))
  ∧ (∀ z, answer = Returned z → get_zone zone_name r = (Done (Some z), r')).
Proof.
  intros answer r'. subst answer r'. rewrite get_zone_run. cbn zeta.
  destruct (zone_get zone_name (world r)) as [[z|exc] w]; cbn [fst snd].
  - split; [split; [done | by intros (? & ? & ? & _)]|].
    split; [done|]. split; [done|]. by intros z' [= <-].
  - assert (Hnf : not_found exc = true ↔
              ∃ status text, exc = ResourceException status text
                ∧ (status = Some 404 ∨ ∃ pre post, text = pre +:+ "404" +:+ post)).
    { destruct exc as [status text|text]; simpl.
      - rewrite orb_true_iff, bool_decide_eq_true, str_in_spec. split.
        + intros H. by exists status, text.
        + by intros (? & ? & [= <- <-] & H).
      - split; [done | by intros (? & ? & ? & _)]. }
    destruct (not_found exc) eqn:Hexc.
    + split.
      { split; [intros _ | done].
        destruct (proj1 Hnf eq_refl) as (status & text & -> & H).
        by exists status, text. }
      split; [done|]. split; [|done].
      intros exc' [= <-] Hno. destruct Hno. by apply Hnf.
    + assert (Hno : ¬ ∃ status text, exc = ResourceException status text
                ∧ (status = Some 404 ∨ ∃ pre post, text = pre +:+ "404" +:+ post)).
      { intros H. apply Hnf in H. done. }
      split.
      { split; [done|]. intros (status & text & [= ->] & H).
        destruct Hno. by exists status, text. }
      split.
      { intros status pre post [= ->]. destruct Hno. eauto 10. }
      split; [|done]. by intros exc' [= <-] _.
Qed.

(** The property at work: a server error whose text mentions 404 is read as
    an absent zone, a plain server error ends the run. *)
Lemma get_zone_absent_iff_witness :
  get_zone "tenant01"
    (fresh {| side_effect :=
                [Raised (ResourceException (Some 500)
                           ("500 Internal Server Error: " +:+ "404" +:+ " vlans in use"))];
              mutation := Returned tt |})
  = (Done None, {| world := mock []; calls := [ZoneGet "tenant01"] |})
  ∧ get_zone "tenant01"
      (fresh (mock [Raised (ResourceException (Some 500) "500 Internal Server Error")]))
    = (FailJson "Failed to retrieve SDN zone 'tenant01': 500 Internal Server Error",
       {| world := mock []; calls := [ZoneGet "tenant01"] |}).
Proof.
  split.
  - exact (proj1 (proj2 (get_zone_absent_iff "tenant01"
             (fresh {| side_effect :=
                         [Raised (ResourceException (Some 500)
                                    ("500 Internal Server Error: " +:+ "404"
                                     +:+ " vlans in use"))];
                       mutation := Returned tt |})))
           (Some 500) "500 Internal Server Error: " " vlans in use" eq_refl).
  - refine (proj1 (proj2 (proj2 (get_zone_absent_iff "tenant01"
             (fresh (mock [Raised (ResourceException (Some 500)
                                     "500 Internal Server Error")]))))) _ eq_refl _).
    intros (status & text & [= <- <-] & [H | (pre & post & H)]); [done|].
    assert (Hin : str_in "404" "500 Internal Server Error" = true)
      by (apply str_in_spec; eauto).
    by vm_compute in Hin.
Defined.

(** ** Ensure present: the zone exists *)

(** C2. When the fetched zone exists, its type matches a supplied type, and
    every desired field is observed with the same [str()] form, then
    [ensure_present] returns [changed = False] with the observed zone as it
    was fetched, and the fetch is the only call it issues: nothing is
    created, updated, deleted or applied.  This holds in and out of check
    mode. *)
Theorem ensure_present_noop {W : Type} `{!Api W} (module : AnsibleModule)
    (r : Run W) (existing : Dict) (w' : W) :
  zone_get (zone (params module)) (world r) = (Returned existing, w') →
  existing ≠ ∅ →
  (∀ t, type (params module) = Some t → py_str (dict_get existing "type") = t) →
  (∀ api_field v,
     build_payload (params module) !! api_field = Some v →
     ∃ observed, existing !! api_field = Some observed
                 ∧ py_str observed = py_str v) →
  ensure_present module r =
  (Done (false, Some existing,
         "SDN zone '" +:+ zone (params module) +:+ "' already present."),
   {| world := w'; calls := calls r ++ [ZoneGet (zone (params module))] |}).
Proof.
  intros Hget Hne Htype Heq. unfold_run. rewrite Hget.
  cbn [fst snd world calls zone_truthy negb default from_option].
  rewrite (bool_decide_eq_false_2 _ Hne). cbn [negb id].
  assert (Hup : build_updates existing (build_payload (params module)) = ∅).
  { apply build_updates_empty. intros key v Hd.
    destruct (Heq key v Hd) as (o & Ho & Hs). unfold dict_get. by rewrite Ho. }
  destruct (type (params module)) as [t|] eqn:Ht; cbn [str_truthy of_opt_str py_str].
  - rewrite (Htype t eq_refl).
    rewrite (bool_decide_eq_false_2 (t ≠ t)) by (intros H; by apply H).
    rewrite andb_false_r. rewrite Hup. by rewrite bool_decide_eq_true_2.
  - cbn [andb]. rewrite Hup. by rewrite bool_decide_eq_true_2.
Qed.

(** The scenario of [test_ensure_present_no_change], through the theorem. *)
Lemma ensure_present_noop_witness :
  ensure_present {| params := test_params; check_mode := false |}
    (fresh (mock [Returned test_zone]))
  = (Done (false, Some test_zone, "SDN zone 'tenant01' already present."),
     {| world := mock []; calls := [ZoneGet "tenant01"] |}).
Proof.
  apply (ensure_present_noop {| params := test_params; check_mode := false |}
           (fresh (mock [Returned test_zone])) test_zone (mock [])).
  - reflexivity.
  - apply (bool_decide_unpack _). by vm_compute.
  - intros t [= <-]. by vm_compute.
  - intros api_field v Hv.
    apply build_payload_Some in Hv as (opt & Hin & Hv).
    unfold ZONE_OPTION_MAP in Hin.
    repeat (apply elem_of_cons in Hin as [[= -> ->]|Hin];
            [vm_compute in Hv; try discriminate;
             injection Hv as <-; eexists; split; by vm_compute|]).
    by apply elem_of_nil in Hin.
Defined.

(** C4. When the fetched zone exists and a supplied backend type differs,
    as strings, from the observed one, [ensure_present] ends in
    [fail_json] with the fetch as its only call, whatever the check mode;
    and no update that [ensure_present] ever issues carries the key
    ["type"]. *)
Theorem ensure_present_type_mismatch {W : Type} `{!Api W} :
  (∀ (p : Params) (check : bool) (r : Run W) (existing : Dict) (w' : W) (t : string),
     zone_get (zone p) (world r) = (Returned existing, w') →
     existing ≠ ∅ →
     type p = Some t →
     t ∈ type_choices →
     py_str (dict_get existing "type") ≠ t →
     ensure_present {| params := p; check_mode := check |} r =
     (FailJson ("SDN zone '" +:+ zone p +:+ "' already exists with type '"
                +:+ py_str (dict_get existing "type")
                +:+ "' which does not match the requested type '" +:+ t +:+ "'"),
      {| world := w'; calls := calls r ++ [ZoneGet (zone p)] |}))
  ∧ (∀ (module : AnsibleModule) (r : Run W) (zone_name : string) (kwargs : Dict),
       ZonePut zone_name kwargs ∈ issued (ensure_present module) r →
       kwargs !! "type" = None).
Proof.
  split.
  - intros p check r existing w' t Hget Hne Ht Hin Hdiff. unfold_run.
    cbn [params check_mode]. rewrite Hget.
    cbn [fst snd world calls zone_truthy negb default from_option].
    rewrite (bool_decide_eq_false_2 _ Hne). cbn [negb id].
    rewrite Ht, (type_choices_truthy t Hin). cbn [of_opt_str py_str andb].
    by rewrite (bool_decide_eq_true_2 _ Hdiff).
  - intros module r zone_name kwargs Hin.
    apply ensure_present_call in Hin as [?|(_ & [?|(existing & _ & Hc)])];
      try discriminate.
    injection Hc as -> ->. rewrite update_payload_other by done.
    apply build_updates_other, reserved_keys_not_fields.
Qed.

(** A zone of type [vxlan] against a request for [evpn], in check mode. *)
Lemma ensure_present_type_mismatch_witness :
  ensure_present {| params := test_params; check_mode := true |}
    (fresh (mock [Returned (<["type" := VStr "vxlan"]> test_zone)]))
  = (FailJson ("SDN zone 'tenant01' already exists with type 'vxlan' "
               +:+ "which does not match the requested type 'evpn'"),
     {| world := mock []; calls := [ZoneGet "tenant01"] |}).
Proof.
  refine (proj1 ensure_present_type_mismatch test_params true
            (fresh (mock [Returned (<["type" := VStr "vxlan"]> test_zone)]))
            (<["type" := VStr "vxlan"]> test_zone) (mock []) "evpn"
            eq_refl _ eq_refl _ _).
  - apply (bool_decide_unpack _). by vm_compute.
  - apply (bool_decide_unpack _). by vm_compute.
  - apply (bool_decide_unpack _). by vm_compute.
Defined.

(** ** Sparse options and the lock token *)

Lemma apply_not_field : "apply" ∉ ZONE_OPTION_MAP.*2.
Proof. apply (bool_decide_unpack _). by vm_compute. Qed.

(** C3. An option whose parameter is [None] has its backend field in no
    payload: not in the desired payload, not in the create payload, not in
    the update payload for any observed zone, and in the keyword arguments
    of no call that a run of [main] issues, whatever the remote side
    answers. *)
Theorem absent_option_never_sent {W : Type} `{!Api W} (module : AnsibleModule)
    (opt api_field : string) :
  (opt, api_field) ∈ ZONE_OPTION_MAP →
  params_get (params module) opt = VNone →
  build_payload (params module) !! api_field = None
  ∧ create_payload_of module !! api_field = None
  ∧ (∀ existing, update_payload_of module existing !! api_field = None)
  ∧ (∀ (r : Run W) (c : Call),
       c ∈ issued (main module) r → call_kwargs c !! api_field = None).
Proof.
  intros Hin Hnone.
  assert (Hfield : api_field ∈ ZONE_OPTION_MAP.*2).
  { apply list_elem_of_fmap. by exists (opt, api_field). }
  assert (Hlock : api_field ≠ "lock-token").
  { intros ->. by apply reserved_keys_not_fields. }
  assert (Hpay : build_payload (params module) !! api_field = None).
  { rewrite (build_payload_field _ opt) by done.
    unfold desired_value. by rewrite Hnone. }
  assert (Hupd : ∀ existing, update_payload_of module existing !! api_field = None).
  { intros existing. rewrite update_payload_other by done.
    by rewrite build_updates_lookup, Hpay. }
  assert (Hcre : create_payload_of module !! api_field = None).
  { by rewrite create_payload_field. }
  repeat split; try done.
  intros r c Hc.
  apply main_call in Hc as [->|(_ & [->|[(e & _ & ->)|[->| ->]]])];
    cbn [call_kwargs]; try done.
  - by apply delete_kwargs_other.
  - apply lookup_singleton_ne. intros <-. by apply apply_not_field.
Qed.

(** The fixture sets no bridge: a create of the fixture's zone carries no
    ["bridge"] field. *)
Lemma absent_option_never_sent_witness :
  call_kwargs (ZonesPost test_zone) !! "bridge" = None.
Proof.
  refine (proj2 (proj2 (proj2
            (absent_option_never_sent (W := Mock)
               {| params := test_params; check_mode := false |}
               "bridge" "bridge" _ eq_refl)))
            (fresh (mock [Raised (ResourceException (Some 404) "404 Not Found");
                          Returned test_zone]))
            (ZonesPost test_zone) _).
  - apply (bool_decide_unpack _). by vm_compute.
  - apply (bool_decide_unpack _). by vm_compute.
Defined.

(** C9, as stated, fails for the empty lock token: the parameter is
    present and is a string, and the create issued for it carries no
    ["lock-token"] field. *)
Lemma empty_lock_token_not_forwarded :
  let module := {| params := with_lock_token (Some "") test_params;
                   check_mode := false |} in
  lock_token (params module) = Some ""
  ∧ ∃ kwargs,
      ZonesPost kwargs
        ∈ issued (main module)
            (fresh (mock [Raised (ResourceException (Some 404) "404 Not Found");
                          Returned test_zone]))
      ∧ kwargs !! "lock-token" ≠ Some (VStr "").
Proof.
  split; [reflexivity|]. exists test_zone. split.
  - apply (bool_decide_unpack _). by vm_compute.
  - apply (bool_decide_unpack _). by vm_compute.
Qed.

(** C9, amended. A lock token that is a non-empty string is forwarded as
    it is: every create, update and delete that a run of [main] issues
    carries it under ["lock-token"].  When the parameter is [None] or the
    empty string, no call of the run has a ["lock-token"] argument. *)
Theorem lock_token_forwarded {W : Type} `{!Api W} (module : AnsibleModule)
    (r : Run W) (c : Call) :
  c ∈ issued (main module) r →
  (∀ t, lock_token (params module) = Some t → t ≠ "" →
        zone_mutation c = true →
        call_kwargs c !! "lock-token" = Some (VStr t))
  ∧ (lock_token (params module) = None ∨ lock_token (params module) = Some "" →
     call_kwargs c !! "lock-token" = None).
Proof.
  intros Hc.
  assert (Hkw : zone_mutation c = true →
                call_kwargs c !! "lock-token" = lock_field (params module)).
  { apply main_call in Hc as [->|(_ & [->|[(e & _ & ->)|[->| ->]]])];
      cbn [call_kwargs zone_mutation]; try done; intros _.
    - apply create_payload_lock.
    - apply update_payload_lock.
    - apply delete_kwargs_lock. }
  split.
  - intros t Ht Hne Hmut. rewrite Hkw by done. unfold lock_field.
    rewrite Ht. by rewrite (proj2 (str_truthy_Some t) Hne).
  - intros Hno.
    assert (Hf : lock_field (params module) = None).
    { unfold lock_field. by destruct Hno as [-> | ->]. }
    destruct (zone_mutation c) eqn:Hmut; [by rewrite Hkw|].
    apply main_call in Hc as [->|(_ & [->|[(e & _ & ->)|[->| ->]]])];
      try discriminate; done.
Qed.

(** A token [t0k3n] on the delete of an existing zone. *)
Lemma lock_token_forwarded_witness :
  call_kwargs (ZoneDelete "tenant01" {[ "lock-token" := VStr "t0k3n" ]})
    !! "lock-token" = Some (VStr "t0k3n").
Proof.
  refine (proj1 (lock_token_forwarded (W := Mock)
            {| params := with_lock_token (Some "t0k3n")
                           (with_state "absent" test_params);
               check_mode := false |}
            (fresh (mock [Returned test_zone]))
            (ZoneDelete "tenant01" {[ "lock-token" := VStr "t0k3n" ]}) _)
          "t0k3n" eq_refl _ eq_refl).
  - apply (bool_decide_unpack _). by vm_compute.
  - done.
Defined.

(** ** Check mode and the committer *)

(** C5. In check mode a run of [main] issues fetches only: no create,
    update, delete or apply, whatever the parameters and whatever the
    remote side answers.  When that run ends with a result, the apply is
    not reported, and its [changed] flag tells what the same run would do
    outside check mode from the same state of the remote side: it is
    [True] exactly when that run issues a create, an update or a delete,
    and it is the flag that run returns when it ends with a result. *)
Theorem check_mode_pure {W : Type} `{!Api W} (p : Params) (r : Run W) :
  let dry := {| params := p; check_mode := true |} in
  let real := {| params := p; check_mode := false |} in
  forallb (λ c, negb (mutating c)) (issued (main dry) r) = true
  ∧ (∀ out r',
       main dry r = (Done out, r') →
       sdn_configuration_applied out = None
       ∧ changed out = existsb zone_mutation (issued (main real) r)
       ∧ (∀ out' r'', main real r = (Done out', r'') →
                      changed out' = changed out)).
Proof.
  intros dry real. subst dry real. destruct r as [w cs].
  unfold issued. unfold_run. cbn [params check_mode].
  api_cases.
  all: rewrite <- ?app_assoc, ?drop_app_length; cbn [app].
  all: split; [reflexivity|].
  all: intros out r'; try (intros [=]; fail).
  all: intros [= <- <-]; cbn [changed sdn_configuration_applied].
  all: split; [reflexivity|]; split; [reflexivity|].
  all: intros out' r''; try (intros [=]; fail).
  all: by intros [= <- <-].
Qed.

(** The fixture against a zone whose MTU differs: the check run only
    fetches and reports a change. *)
Lemma check_mode_pure_witness :
  changed {| changed := true;
             msg := "SDN zone 'tenant01' would be updated (check mode).";
             sdn_zone := Some (<["mtu" := VInt 1500]> test_zone);
             sdn_configuration_applied := None |}
  = existsb zone_mutation
      (issued (main {| params := test_params; check_mode := false |})
         (fresh (mock [Returned (<["mtu" := VInt 1500]> test_zone);
                       Returned test_zone]))).
Proof.
  refine (proj1 (proj2 (proj2 (check_mode_pure (W := Mock) test_params
            (fresh (mock [Returned (<["mtu" := VInt 1500]> test_zone);
                          Returned test_zone])))
            _ {| world := mock [Returned test_zone];
                 calls := [ZoneGet "tenant01"] |} _))).
  apply (bool_decide_unpack _). by vm_compute.
Defined.

Lemma filter_apply_none (l : list Call) :
  (∀ c, c ∈ l → is_apply c = false) →
  filter (λ c, is_apply c = true) l = [].
Proof.
  induction l as [|a l IH]; intros H; [done|].
  rewrite filter_cons_False.
  - apply IH. intros c Hc. apply H. by right.
  - rewrite H; [done | by left].
Qed.

(** C7. In check mode [apply_sdn_configuration] issues no call and returns
    [False].  Outside check mode it issues the apply exactly once, returns
    [True] when the call returns and ends the run in [fail_json] when the
    call raises, without trying again.  [main] runs it after the reconciler
    and only when the reconciler reported a change, so a run of [main]
    issues the apply at most once, and only after a reported change and
    outside check mode. *)
Theorem committer_once {W : Type} `{!Api W} :
  (∀ r : Run W, apply_sdn_configuration true r = (Done false, r))
  ∧ (∀ r : Run W,
       apply_sdn_configuration false r =
       (match (sdn_put {[ "apply" := VInt 1 ]} (world r)).1 with
        | Returned _ => Done true
        | Raised exc =>
            FailJson ("Failed to apply SDN configuration: " +:+ to_native exc)
        end,
        {| world := (sdn_put {[ "apply" := VInt 1 ]} (world r)).2;
           calls := calls r ++ [SdnPut {[ "apply" := VInt 1 ]}] |}))
  ∧ (∀ (module : AnsibleModule) (r : Run W),
       main module r =
       match reconcile module r with
       | (FailJson e, r1) => (FailJson e, r1)
       | (Done (changed, zone_data, message), r1) =>
           if changed then
             match apply_sdn_configuration (check_mode module) r1 with
             | (Done applied, r2) =>
                 (Done {| changed := true; msg := message;
                          sdn_zone := zone_data;
                          sdn_configuration_applied :=
                            if applied then Some true else None |}, r2)
             | (FailJson e, r2) => (FailJson e, r2)
             end
           else
             (Done {| changed := false; msg := message; sdn_zone := zone_data;
                      sdn_configuration_applied := None |}, r1)
       end)
  ∧ (∀ (module : AnsibleModule) (r : Run W),
       (length (filter (λ c, is_apply c = true) (issued (main module) r)) ≤ 1)%nat
       ∧ (Exists (λ c, is_apply c = true) (issued (main module) r) →
          check_mode module = false
          ∧ ∃ zone_data message r1,
              reconcile module r = (Done (true, zone_data, message), r1))).
Proof.
  split; [done|]. split.
  { intros r. unfold_run. by destruct (sdn_put _ _) as [[[]|exc] w]. }
  split; [apply main_run|].
  intros module r.
  assert (Hrec : ∀ c, c ∈ issued (reconcile module) r → is_apply c = false).
  { intros c Hc. unfold reconcile in Hc. destruct (_ =? _)%string.
    - by apply ensure_present_call in Hc as [->|(_ & [->|(e & _ & ->)])].
    - by apply ensure_absent_call in Hc as [->|(_ & ->)]. }
  assert (Hnone : filter (λ c, is_apply c = true) (issued (reconcile module) r) = []).
  { by apply filter_apply_none. }
  destruct (main_issued module r) as [Hi | (Hc & Hch & Hi)]; rewrite Hi.
  - rewrite Hnone. split; [cbn; lia|].
    intros Hex. apply Exists_exists in Hex as (c & Hin & Hc).
    by rewrite (Hrec c Hin) in Hc.
  - rewrite filter_app, Hnone, app_nil_l. split; [|done].
    etransitivity; [apply length_filter|]. cbn. lia.
Qed.

(** ** The paths of [ensure_present] *)

Section Paths.
Context {W : Type} `{!Api W}.
Implicit Types (module : AnsibleModule) (r : Run W).

Lemma ensure_present_fetch_failed module r e r1 :
  get_zone (zone (params module)) r = (FailJson e, r1) →
  ensure_present module r = (FailJson e, r1).
Proof. intros H. unfold ensure_present, bind. by rewrite H. Qed.

Lemma ensure_present_check_create module r existing_zone r1 :
  get_zone (zone (params module)) r = (Done existing_zone, r1) →
  zone_truthy existing_zone = false →
  check_mode module = true →
  ensure_present module r =
  (Done (true, Some (create_payload_of module),
         "SDN zone '" +:+ zone (params module)
         +:+ "' would be created (check mode)."), r1).
Proof.
  intros Hget Hz Hc. unfold ensure_present, bind.
  by rewrite Hget, Hz, Hc.
Qed.

Lemma ensure_present_create module r existing_zone r1 :
  get_zone (zone (params module)) r = (Done existing_zone, r1) →
  zone_truthy existing_zone = false →
  check_mode module = false →
  ensure_present module r =
  let r2 := {| world := (zones_post (create_payload_of module) (world r1)).2;
               calls := calls r1 ++ [ZonesPost (create_payload_of module)] |} in
  match (zones_post (create_payload_of module) (world r1)).1 with
  | Raised exc =>
      (FailJson ("Failed to create SDN zone '" +:+ zone (params module)
                 +:+ "': " +:+ to_native exc), r2)
  | Returned _ =>
      match get_zone (zone (params module)) r2 with
      | (Done new_zone, r3) =>
          (Done (true, new_zone,
                 "SDN zone '" +:+ zone (params module) +:+ "' created."), r3)
      | (FailJson e, r3) => (FailJson e, r3)
      end
  end.
Proof.
  intros Hget Hz Hc. unfold ensure_present, bind.
  rewrite Hget, Hz, Hc. cbn [negb]. unfold try_, ret, fail_json.
  fold (create_payload_of module).
  destruct (zones_post (create_payload_of module) (world r1)) as [[[]|exc] w2];
    cbn [fst snd]; [|done].
  by destruct (get_zone _ _) as [[nz|e] r3].
Qed.

Lemma ensure_present_conflict module r existing r1 :
  get_zone (zone (params module)) r = (Done (Some existing), r1) →
  existing ≠ ∅ →
  type_conflict module existing = true →
  ensure_present module r =
  (FailJson ("SDN zone '" +:+ zone (params module)
             +:+ "' already exists with type '"
             +:+ py_str (dict_get existing "type")
             +:+ "' which does not match the requested type '"
             +:+ py_str (of_opt_str (type (params module))) +:+ "'"), r1).
Proof.
  intros Hget Hne Ht. unfold ensure_present, bind. rewrite Hget.
  cbn [zone_truthy]. rewrite (bool_decide_eq_false_2 _ Hne). cbn [negb default from_option id].
  fold (type_conflict module existing). by rewrite Ht.
Qed.

Lemma ensure_present_settled module r existing r1 :
  get_zone (zone (params module)) r = (Done (Some existing), r1) →
  existing ≠ ∅ →
  type_conflict module existing = false →
  build_updates existing (build_payload (params module)) = ∅ →
  ensure_present module r =
  (Done (false, Some existing,
         "SDN zone '" +:+ zone (params module) +:+ "' already present."), r1).
Proof.
  intros Hget Hne Ht Hup. unfold ensure_present, bind. rewrite Hget.
  cbn [zone_truthy]. rewrite (bool_decide_eq_false_2 _ Hne). cbn [negb default from_option id].
  fold (type_conflict module existing). rewrite Ht. unfold ret at 1.
  by rewrite Hup, bool_decide_eq_true_2.
Qed.

Lemma ensure_present_check_update module r existing r1 :
  get_zone (zone (params module)) r = (Done (Some existing), r1) →
  existing ≠ ∅ →
  type_conflict module existing = false →
  build_updates existing (build_payload (params module)) ≠ ∅ →
  check_mode module = true →
  ensure_present module r =
  (Done (true, Some existing,
         "SDN zone '" +:+ zone (params module)
         +:+ "' would be updated (check mode)."), r1).
Proof.
  intros Hget Hne Ht Hup Hc. unfold ensure_present, bind. rewrite Hget.
  cbn [zone_truthy]. rewrite (bool_decide_eq_false_2 _ Hne). cbn [negb default from_option id].
  fold (type_conflict module existing). rewrite Ht. unfold ret at 1.
  by rewrite (bool_decide_eq_false_2 _ Hup), Hc.
Qed.

Lemma ensure_present_update module r existing r1 :
  get_zone (zone (params module)) r = (Done (Some existing), r1) →
  existing ≠ ∅ →
  type_conflict module existing = false →
  build_updates existing (build_payload (params module)) ≠ ∅ →
  check_mode module = false →
  ensure_present module r =
  let updates := update_payload_of module existing in
  let r2 := {| world := (zone_put (zone (params module)) updates (world r1)).2;
               calls := calls r1 ++ [ZonePut (zone (params module)) updates] |} in
  match (zone_put (zone (params module)) updates (world r1)).1 with
  | Raised exc =>
      (FailJson ("Failed to update SDN zone '" +:+ zone (params module)
                 +:+ "': " +:+ to_native exc), r2)
  | Returned _ =>
      match get_zone (zone (params module)) r2 with
      | (Done new_zone, r3) =>
          (Done (true, new_zone,
                 "SDN zone '" +:+ zone (params module) +:+ "' updated."), r3)
      | (FailJson e, r3) => (FailJson e, r3)
      end
  end.
Proof.
  intros Hget Hne Ht Hup Hc. unfold ensure_present, bind. rewrite Hget.
  cbn [zone_truthy]. rewrite (bool_decide_eq_false_2 _ Hne). cbn [negb default from_option id].
  fold (type_conflict module existing). rewrite Ht. unfold ret at 1.
  rewrite (bool_decide_eq_false_2 _ Hup), Hc.
  unfold try_, ret, fail_json. fold (update_payload_of module existing).
  cbn zeta.
  destruct (zone_put _ _ _) as [[[]|exc] w2]; cbn [fst snd]; [|done].
  by destruct (get_zone _ _) as [[nz|e] r3].
Qed.
End Paths.

(** ** Two runs in a row against a cluster that keeps what it is sent *)

Lemma cluster_get_zone (zone_name : string) (r : Run Cluster) :
  get_zone zone_name r =
  (Done (zones (world r) !! zone_name),
   {| world := world r; calls := calls r ++ [ZoneGet zone_name] |}).
Proof.
  rewrite get_zone_run. cbn [zone_get cluster_api]. unfold cluster_get.
  by destruct (zones (world r) !! zone_name).
Qed.

Lemma create_payload_settled module :
  settled module (delete "lock-token" (create_payload_of module)).
Proof.
  destruct reserved_keys_not_fields as (Hz & Ht & Hl).
  assert (Hlook : ∀ key, key ≠ "lock-token" →
            delete "lock-token" (create_payload_of module) !! key =
            (<["type" := of_opt_str (type (params module))]>
               (<["zone" := VStr (zone (params module))]>
                  (build_payload (params module)))) !! key).
  { intros key Hk. rewrite lookup_delete_ne by done. unfold create_payload_of.
    destruct (str_truthy _); [by rewrite lookup_insert_ne|done]. }
  split; [|split].
  - intros He. assert (H := Hlook "zone" ltac:(done)).
    rewrite He, lookup_empty, lookup_insert_ne, lookup_insert_eq in H; done.
  - unfold type_conflict, dict_get. rewrite Hlook by done.
    rewrite lookup_insert_eq. cbn [default from_option id].
    rewrite (bool_decide_eq_false_2 (_ ≠ _)) by (intros H; by apply H).
    apply andb_false_r.
  - apply build_updates_empty. intros key v Hv. unfold dict_get.
    assert (Hin : key ∈ ZONE_OPTION_MAP.*2).
    { destruct (decide (key ∈ ZONE_OPTION_MAP.*2)); [done|].
      by rewrite build_payload_other in Hv. }
    rewrite Hlook by (by intros ->).
    rewrite !lookup_insert_ne by (by intros <-). by rewrite Hv.
Qed.

Lemma update_settled module existing :
  existing ≠ ∅ →
  type_conflict module existing = false →
  settled module (delete "lock-token" (update_payload_of module existing) ∪ existing).
Proof.
  intros Hne Ht.
  assert (Hlook : ∀ key, key ≠ "lock-token" →
            (delete "lock-token" (update_payload_of module existing) ∪ existing) !! key =
            match build_updates existing (build_payload (params module)) !! key with
            | Some v => Some v
            | None => existing !! key
            end).
  { intros key Hk. rewrite lookup_union, lookup_delete_ne by done.
    rewrite update_payload_other by done.
    destruct (build_updates _ _ !! key), (existing !! key); done. }
  split; [|split].
  - intros He. apply Hne. apply map_empty. intros key.
    assert (H : (delete "lock-token" (update_payload_of module existing) ∪ existing) !! key = None)
      by (by rewrite He).
    rewrite lookup_union in H. by destruct (_ !! key), (existing !! key).
  - unfold type_conflict, dict_get in *. rewrite Hlook by done.
    rewrite build_updates_other by apply reserved_keys_not_fields. done.
  - apply build_updates_empty. intros key v Hv. unfold dict_get.
    assert (Hk : key ≠ "lock-token").
    { intros ->. rewrite build_payload_other in Hv; [done|].
      apply reserved_keys_not_fields. }
    rewrite Hlook by done. rewrite build_updates_lookup, Hv.
    case_bool_decide as Hd; [done|].
    destruct (decide (py_str (dict_get existing key) = py_str v)) as [Heq|Hneq].
    + done.
    + by destruct Hd.
Qed.

Lemma create_payload_zone module :
  create_payload_of module !! "zone" = Some (VStr (zone (params module))).
Proof.
  unfold create_payload_of.
  destruct (str_truthy _); rewrite ?(lookup_insert_ne _ "lock-token") by done;
    by rewrite lookup_insert_ne, lookup_insert_eq.
Qed.

Lemma zone_truthy_Some (d : Dict) : zone_truthy (Some d) = true ↔ d ≠ ∅.
Proof.
  cbn [zone_truthy]. rewrite negb_true_iff, bool_decide_eq_false. done.
Qed.

(** After a run of [ensure_present] outside check mode that ends with a
    result, the cluster holds the zone, settled. *)
Lemma ensure_present_settles module (r r1 : Run Cluster) res :
  check_mode module = false →
  ensure_present module r = (Done res, r1) →
  ∃ d, zones (world r1) !! zone (params module) = Some d ∧ settled module d.
Proof.
  intros Hc Hrun. pose proof (cluster_get_zone (zone (params module)) r) as Hget.
  destruct (zone_truthy (zones (world r) !! zone (params module))) eqn:Hz.
  - destruct (zones (world r) !! zone (params module)) as [existing|] eqn:Hl;
      [|done].
    apply zone_truthy_Some in Hz.
    destruct (type_conflict module existing) eqn:Ht.
    { by rewrite (ensure_present_conflict _ _ _ _ Hget Hz Ht) in Hrun. }
    destruct (decide (build_updates existing (build_payload (params module)) = ∅))
      as [Hup|Hup].
    + rewrite (ensure_present_settled _ _ _ _ Hget Hz Ht Hup) in Hrun.
      injection Hrun as <- <-. cbn [world]. by exists existing.
    + rewrite (ensure_present_update _ _ _ _ Hget Hz Ht Hup Hc) in Hrun.
      cbn [zone_put cluster_api world calls] in Hrun. unfold cluster_put in Hrun.
      rewrite Hl in Hrun. cbn [fst snd] in Hrun.
      rewrite cluster_get_zone in Hrun. injection Hrun as <- <-.
      cbn [world zones]. rewrite lookup_insert_eq. eexists. split; [done|].
      by apply update_settled.
  - rewrite (ensure_present_create _ _ _ _ Hget Hz Hc) in Hrun.
    cbn [zones_post cluster_api world calls] in Hrun. unfold cluster_post in Hrun.
    rewrite create_payload_zone in Hrun.
    destruct (zones (world r) !! zone (params module)) as [existing|] eqn:Hl;
      cbn [fst snd] in Hrun; [done|].
    rewrite cluster_get_zone in Hrun. injection Hrun as <- <-.
    cbn [world zones]. rewrite lookup_insert_eq. eexists. split; [done|].
    apply create_payload_settled.
Qed.

(** C8, amended. Outside check mode, against a cluster that keeps what it
    is sent and that nothing else changes: when a run of [ensure_present]
    ends with a result, a second run with the same parameters, started
    from the state the first run left, fetches the zone the first run
    left, issues no other call and returns [changed = False]. *)
Theorem ensure_present_idempotent (module : AnsibleModule) (r r1 : Run Cluster)
    (res : Result3) :
  check_mode module = false →
  ensure_present module r = (Done res, r1) →
  ∃ zone_data,
    zones (world r1) !! zone (params module) = Some zone_data
    ∧ ensure_present module r1 =
      (Done (false, Some zone_data,
             "SDN zone '" +:+ zone (params module) +:+ "' already present."),
       {| world := world r1;
          calls := calls r1 ++ [ZoneGet (zone (params module))] |}).
Proof.
  intros Hc Hrun.
  destruct (ensure_present_settles module r r1 res Hc Hrun)
    as (d & Hd & Hne & Ht & Hup).
  exists d. split; [done|].
  apply ensure_present_settled; try done.
  by rewrite cluster_get_zone, Hd.
Qed.

(** A create of the fixture's zone on an empty cluster, then the second
    run. *)
Lemma ensure_present_idempotent_witness :
  ∃ zone_data,
    zones {| zones := {[ "tenant01" := test_zone ]}; applies := 0 |} !! "tenant01"
    = Some zone_data
    ∧ ensure_present {| params := test_params; check_mode := false |}
        {| world := {| zones := {[ "tenant01" := test_zone ]}; applies := 0 |};
           calls := [ZoneGet "tenant01"; ZonesPost test_zone; ZoneGet "tenant01"] |}
      = (Done (false, Some zone_data, "SDN zone 'tenant01' already present."),
         {| world := {| zones := {[ "tenant01" := test_zone ]}; applies := 0 |};
            calls := [ZoneGet "tenant01"; ZonesPost test_zone; ZoneGet "tenant01";
                      ZoneGet "tenant01"] |}).
Proof.
  refine (ensure_present_idempotent
            {| params := test_params; check_mode := false |}
            (fresh {| zones := ∅; applies := 0 |})
            {| world := {| zones := {[ "tenant01" := test_zone ]}; applies := 0 |};
               calls := [ZoneGet "tenant01"; ZonesPost test_zone; ZoneGet "tenant01"] |}
            (true, Some test_zone, "SDN zone 'tenant01' created.")
            eq_refl _).
  apply (bool_decide_unpack _). by vm_compute.
Defined.

(** C8, as stated, fails in check mode: the first run changes nothing on
    the cluster and returns the zone it fetched; the second run observes
    that same zone and reports [changed = True] again. *)
Lemma check_mode_not_idempotent :
  let module := {| params := with_mtu (Some 1500) test_params;
                   check_mode := true |} in
  let cluster := {| zones := {[ "tenant01" := test_zone ]}; applies := 0 |} in
  let r1 := {| world := cluster; calls := [ZoneGet "tenant01"] |} in
  ensure_present module (fresh cluster)
  = (Done (true, Some test_zone,
           "SDN zone 'tenant01' would be updated (check mode)."), r1)
  ∧ ensure_present module r1
    = (Done (true, Some test_zone,
             "SDN zone 'tenant01' would be updated (check mode)."),
       {| world := cluster; calls := [ZoneGet "tenant01"; ZoneGet "tenant01"] |}).
Proof. split; apply (bool_decide_unpack _); by vm_compute. Qed.

(** ** Where the code departs from the claims *)

(** C1, where the code departs from it. [build_updates] reads a field that
    the observed zone lacks as [None] and compares its [str()], ["None"],
    with that of the desired value: a desired value whose [str()] is
    ["None"] is then no difference, and the field is left out of the update
    set although the zone does not have it. *)
Theorem missing_field_read_as_None (existing desired : Dict)
    (api_field : string) (v : PyVal) :
  existing !! api_field = None →
  desired !! api_field = Some v →
  py_str v = "None" →
  build_updates existing desired !! api_field = None.
Proof.
  intros He Hd Hv. rewrite build_updates_lookup, Hd. unfold dict_get.
  rewrite He. cbn [default from_option id py_str]. rewrite Hv.
  by rewrite bool_decide_eq_false_2 by (intros H; by apply H).
Qed.

(** The parameter [bridge: "None"] against a zone without a bridge: the
    field is not in the update set and the run reports no change. *)
Lemma missing_field_read_as_None_witness :
  build_updates {[ "zone" := VStr "tenant01"; "type" := VStr "evpn" ]}
    (build_payload (with_bridge (Some "None") bare_params)) !! "bridge" = None
  ∧ main {| params := with_bridge (Some "None") bare_params; check_mode := false |}
      (fresh (mock [Returned {[ "zone" := VStr "tenant01"; "type" := VStr "evpn" ]}]))
    = (Done {| changed := false;
               msg := "SDN zone 'tenant01' already present.";
               sdn_zone := Some {[ "zone" := VStr "tenant01"; "type" := VStr "evpn" ]};
               sdn_configuration_applied := None |},
       {| world := mock []; calls := [ZoneGet "tenant01"] |}).
Proof.
  split.
  - apply (missing_field_read_as_None _ _ "bridge" (VStr "None")).
    + apply (bool_decide_unpack _). by vm_compute.
    + apply (bool_decide_unpack _). by vm_compute.
    + reflexivity.
  - apply (bool_decide_unpack _). by vm_compute.
Defined.

(** In check mode [ensure_absent] returns the zone it fetched. *)
Lemma ensure_absent_check {W : Type} `{!Api W}
    (module : AnsibleModule) (r : Run W) (existing : Dict) (w' : W) :
  zone_get (zone (params module)) (world r) = (Returned existing, w') →
  existing ≠ ∅ →
  check_mode module = true →
  ensure_absent module r =
  (Done (true, Some existing,
         "SDN zone '" +:+ zone (params module)
         +:+ "' would be removed (check mode)."),
   {| world := w'; calls := calls r ++ [ZoneGet (zone (params module))] |}).
Proof.
  intros Hget Hne Hc. unfold_run. rewrite Hget.
  cbn [fst snd world calls zone_truthy negb].
  rewrite (bool_decide_eq_false_2 _ Hne). cbn [negb]. by rewrite Hc.
Qed.

(** C6, where the code departs from it. For a zone that exists,
    [ensure_absent] in check mode reports [changed = True] without a
    delete, and the state it returns is the fetched zone, not [None]:
    [main] then exits with [sdn_zone] set although the target state is
    [absent]. *)
Theorem ensure_absent_check_mode_returns_zone {W : Type} `{!Api W}
    (module : AnsibleModule) (r : Run W) (existing : Dict) (w' : W) :
  zone_get (zone (params module)) (world r) = (Returned existing, w') →
  existing ≠ ∅ →
  check_mode module = true →
  ensure_absent module r =
  (Done (true, Some existing,
         "SDN zone '" +:+ zone (params module)
         +:+ "' would be removed (check mode)."),
   {| world := w'; calls := calls r ++ [ZoneGet (zone (params module))] |})
  ∧ main {| params := with_state "absent" (params module); check_mode := true |} r
    = (Done {| changed := true;
               msg := "SDN zone '" +:+ zone (params module)
                      +:+ "' would be removed (check mode).";
               sdn_zone := Some existing;
               sdn_configuration_applied := None |},
       {| world := w'; calls := calls r ++ [ZoneGet (zone (params module))] |}).
Proof.
  intros Hget Hne Hc. split; [by apply ensure_absent_check|].
  rewrite main_run. unfold reconcile. cbn [params state with_state].
  change ("absent" =? "present")%string with false. cbn iota.
  rewrite (ensure_absent_check
             {| params := with_state "absent" (params module);
                check_mode := true |} r existing w' Hget Hne eq_refl).
  reflexivity.
Qed.

(** The fixture's zone, to be removed, in check mode. *)
Lemma ensure_absent_check_mode_returns_zone_witness :
  ensure_absent {| params := with_state "absent" test_params; check_mode := true |}
    (fresh (mock [Returned test_zone]))
  = (Done (true, Some test_zone,
           "SDN zone 'tenant01' would be removed (check mode)."),
     {| world := mock []; calls := [ZoneGet "tenant01"] |}).
Proof.
  refine (proj1 (ensure_absent_check_mode_returns_zone
            {| params := with_state "absent" test_params; check_mode := true |}
            (fresh (mock [Returned test_zone])) test_zone (mock [])
            eq_refl _ eq_refl)).
  apply (bool_decide_unpack _). by vm_compute.
Defined.

(** ** More on the payload and the diff *)

(** X1. The update set of [build_updates] holds an entry exactly when the
    desired mapping holds it and the [str()] of the desired value differs
    from the [str()] of what [existing.get] gives for the field; the value
    sent is the desired one. *)
Theorem update_set_exact (existing desired : Dict) (api_field : string) (v : PyVal) :
  build_updates existing desired !! api_field = Some v
  ↔ desired !! api_field = Some v
    ∧ py_str (dict_get existing api_field) ≠ py_str v.
Proof.
  rewrite build_updates_lookup. destruct (desired !! api_field) as [w|].
  - destruct (decide (py_str (dict_get existing api_field) = py_str w)) as [He|Hd].
    + rewrite bool_decide_eq_false_2 by (intros H; by apply H).
      split; [done|]. intros [[= ->] H]. by destruct H.
    + rewrite bool_decide_eq_true_2 by done.
      split; [by intros [= ->] | by intros [[= ->] _]].
  - split; [done | by intros [? _]].
Qed.

(** X2. [build_payload] stores, under the backend field of each option of
    [ZONE_OPTION_MAP], the value of the parameter when it is not [None]
    (coerced when the option is boolean), nothing for a parameter that is
    [None], nothing under any other key, and never the value [None]. *)
Theorem desired_payload_exact (p : Params) :
  (∀ opt api_field,
     (opt, api_field) ∈ ZONE_OPTION_MAP →
     build_payload p !! api_field =
     match params_get p opt with
     | VNone => None
     | v => Some (if bool_decide (opt ∈ BOOLEAN_OPTIONS)
                  then ansible_to_proxmox_bool v else v)
     end)
  ∧ (∀ key, key ∉ ZONE_OPTION_MAP.*2 → build_payload p !! key = None)
  ∧ (∀ key, build_payload p !! key ≠ Some VNone).
Proof.
  split; [|split].
  - intros opt api_field Hin. by rewrite (build_payload_field p opt).
  - apply build_payload_other.
  - intros key Hk. apply build_payload_Some in Hk as (opt & _ & Hk).
    by apply desired_value_not_None in Hk.
Qed.

(** The fixture: [advertise_subnets: True] is sent as [1], and the payload
    has no ["zone"] key of its own. *)
Lemma desired_payload_exact_witness :
  build_payload test_params !! "advertise-subnets" = Some (VInt 1)
  ∧ build_payload test_params !! "zone" = None.
Proof.
  split.
  - exact (proj1 (desired_payload_exact test_params)
             "advertise_subnets" "advertise-subnets"
             ltac:(apply (bool_decide_unpack _); by vm_compute)).
  - exact (proj1 (proj2 (desired_payload_exact test_params)) "zone"
             ltac:(apply (bool_decide_unpack _); by vm_compute)).
Defined.

(** The parameters respect the types of the argument spec. *)
Lemma option_params_typed (p : Params) :
  Forall (λ e, typed_entry e = true) (option_params p).
Proof.
  unfold option_params.
  repeat (apply Forall_cons; split;
    [ match goal with
      | |- context [of_opt_bool ?x] => by destruct x
      | |- context [of_opt_str ?x] => by destruct x
      | |- context [of_opt_int ?x] => by destruct x
      end |]).
  apply Forall_nil_2.
Qed.

Lemma params_get_typed (p : Params) (opt : string) :
  typed_entry (opt, params_get p opt) = true.
Proof.
  unfold params_get.
  destruct (list_find _ _) as [[i [o v]]|] eqn:Hf; [|done].
  apply list_find_Some in Hf as (Hl & Ho & _).
  apply bool_decide_unpack in Ho. cbn in Ho. subst o.
  pose proof (option_params_typed p) as Hall.
  rewrite Forall_forall in Hall. apply Hall.
  by apply list_elem_of_lookup_2 in Hl.
Qed.

(** X3. Every value of the payload of [build_payload] is an integer or a
    string: the parameters are booleans, integers and strings, and every
    boolean belongs to an option of [BOOLEAN_OPTIONS], which is coerced. *)
Theorem payload_values_int_or_str (p : Params) (key : string) (v : PyVal) :
  build_payload p !! key = Some v →
  (∃ n, v = VInt n) ∨ (∃ s, v = VStr s).
Proof.
  intros Hk. apply build_payload_Some in Hk as (opt & Hin & Hk).
  pose proof (params_get_typed p opt) as Ht.
  unfold desired_value in Hk. unfold typed_entry in Ht. cbn [fst snd] in Ht.
  destruct (params_get p opt) as [|[]|n|s]; try done.
  - rewrite Ht in Hk. injection Hk as <-. eauto.
  - rewrite Ht in Hk. injection Hk as <-. eauto.
  - apply negb_true_iff in Ht. rewrite Ht in Hk. injection Hk as <-. eauto.
  - apply negb_true_iff in Ht. rewrite Ht in Hk. injection Hk as <-. eauto.
Qed.

(** X4. For a desired integer, [build_updates] leaves the field out
    against an observed integer exactly when the two are equal, and leaves
    it out against the observed string that spells the same number. *)
Theorem integer_field_compares_by_value (existing desired : Dict)
    (key : string) (a : Z) :
  desired !! key = Some (VInt a) →
  (∀ b, existing !! key = Some (VInt b) →
        (build_updates existing desired !! key = None ↔ a = b))
  ∧ (existing !! key = Some (VStr (py_str (VInt a))) →
     build_updates existing desired !! key = None).
Proof.
  intros Hd. split.
  - intros b He. rewrite build_updates_lookup, Hd. unfold dict_get.
    rewrite He. cbn [default from_option id py_str]. split.
    + intros H. destruct (decide (b = a)) as [->|Hne]; [done|].
      rewrite bool_decide_eq_true_2 in H; [done|].
      intros Hp. apply Hne. by apply (inj pretty).
    + intros ->. by rewrite bool_decide_eq_false_2 by (intros H; by apply H).
  - intros He. rewrite build_updates_lookup, Hd. unfold dict_get.
    rewrite He. cbn [default from_option id py_str].
    by rewrite bool_decide_eq_false_2 by (intros H; by apply H).
Qed.

(** The MTU [1400] against the observed string ["1400"]. *)
Lemma integer_field_compares_by_value_witness :
  build_updates {[ "mtu" := VStr "1400" ]} {[ "mtu" := VInt 1400 ]} !! "mtu" = None.
Proof.
  refine (proj2 (integer_field_compares_by_value
            {[ "mtu" := VStr "1400" ]} {[ "mtu" := VInt 1400 ]} "mtu" 1400 _) _).
  - apply (bool_decide_unpack _). by vm_compute.
  - apply (bool_decide_unpack _). by vm_compute.
Defined.

Section Shape.
Context {W : Type} `{!Api W}.

(** The calls of the reconciler: the fetch, then at most one create,
    update or delete outside check mode, then at most one more fetch. *)
Lemma reconcile_issued module (r : Run W) :
  ∃ rest,
    issued (reconcile module) r = ZoneGet (zone (params module)) :: rest
    ∧ (rest = []
       ∨ ∃ c tail, rest = c :: tail ∧ zone_mutation c = true
                   ∧ check_mode module = false
                   ∧ (tail = [] ∨ tail = [ZoneGet (zone (params module))])).
Proof.
  unfold reconcile. destruct (_ =? _)%string.
  - destruct (ensure_present_issued module r)
      as [Hi | [(Hc & tail & Hi & Ht) | (Hc & e & tail & _ & Hi & Ht)]];
      rewrite Hi; eexists; (split; [done|]); [by left | right | right];
      by do 2 eexists.
  - destruct (ensure_absent_issued module r) as [Hi | (Hc & Hi)];
      rewrite Hi; eexists; (split; [done|]); [by left | right].
    do 2 eexists. split; [done|]. by auto.
Qed.

(** X5. Whatever the remote side answers, the calls of a run of [main]
    start with the fetch of the zone, hold at most two fetches and at most
    one create, update or delete, and an apply comes last. *)
Theorem main_trace_shape (module : AnsibleModule) (r : Run W) :
  let trace := issued (main module) r in
  head trace = Some (ZoneGet (zone (params module)))
  ∧ (length (filter (λ c, mutating c = false) trace) ≤ 2)%nat
  ∧ (length (filter (λ c, zone_mutation c = true) trace) ≤ 1)%nat
  ∧ (∀ c, c ∈ trace → is_apply c = true → last trace = Some c).
Proof.
  cbn zeta.
  destruct (reconcile_issued module r) as (rest & Hrec & Hrest).
  assert (Hshape : ∃ fin, issued (main module) r
                          = ZoneGet (zone (params module)) :: rest ++ fin
                          ∧ (fin = [] ∨ fin = [SdnPut {[ "apply" := VInt 1 ]}])).
  { destruct (main_issued module r) as [Hi | (_ & _ & Hi)]; rewrite Hi, Hrec.
    - exists []. rewrite app_nil_r. by auto.
    - exists [SdnPut {[ "apply" := VInt 1 ]}]. by auto. }
  destruct Hshape as (fin & -> & Hfin).
  destruct Hrest as [-> | (c0 & tail & -> & Hmut & _ & Htail)].
  - destruct Hfin as [-> | ->]; cbn; split_and!; try done;
      try (repeat case_decide; try done; cbn; lia);
      intros c Hc Ha;
      repeat (apply elem_of_cons in Hc as [->|Hc]; [done|]);
      by apply elem_of_nil in Hc.
  - destruct c0 as [z|kw|z kw|z kw|kw]; try discriminate;
      destruct Htail as [-> | ->]; destruct Hfin as [-> | ->];
      cbn; split_and!; try done;
      try (repeat case_decide; try done; cbn; lia);
      intros c Hc Ha;
      repeat (apply elem_of_cons in Hc as [->|Hc]; [done|]);
      by apply elem_of_nil in Hc.
Qed.
End Shape.



Section More.
Context {W : Type} `{!Api W}.

(** ** The paths of [main] *)

(** The answers of the fetch that [ensure_present] and [ensure_absent] read
    as "no zone": a "not found" exception, or an empty mapping. *)
Lemma get_zone_absent_answer (zone_name : string) (r : Run W) o w' :
  zone_get zone_name (world r) = (o, w') →
  o = Returned ∅ ∨ (∃ exc, o = Raised exc ∧ not_found exc = true) →
  ∃ existing_zone,
    get_zone zone_name r =
    (Done existing_zone,
     {| world := w'; calls := calls r ++ [ZoneGet zone_name] |})
    ∧ zone_truthy existing_zone = false.
Proof.
  intros Hget Ho. rewrite get_zone_run, Hget. cbn [fst snd].
  destruct Ho as [-> | (exc & -> & Hnf)].
  - by exists (Some ∅).
  - rewrite Hnf. by exists None.
Qed.

(** The paths of [ensure_absent]. *)
Lemma ensure_absent_absent module (r : Run W) existing_zone r1 :
  get_zone (zone (params module)) r = (Done existing_zone, r1) →
  zone_truthy existing_zone = false →
  ensure_absent module r =
  (Done (false, None,
         "SDN zone '" +:+ zone (params module) +:+ "' already absent."), r1).
Proof.
  intros Hget Hz. unfold ensure_absent, bind. by rewrite Hget, Hz.
Qed.

Lemma ensure_absent_delete module (r : Run W) existing r1 :
  get_zone (zone (params module)) r = (Done (Some existing), r1) →
  existing ≠ ∅ →
  check_mode module = false →
  ensure_absent module r =
  (match (zone_delete (zone (params module)) (delete_kwargs_of module) (world r1)).1 with
   | Raised exc =>
       FailJson ("Failed to remove SDN zone '" +:+ zone (params module)
                 +:+ "': " +:+ to_native exc)
   | Returned _ =>
       Done (true, None,
             "SDN zone '" +:+ zone (params module) +:+ "' removed.")
   end,
   {| world := (zone_delete (zone (params module)) (delete_kwargs_of module) (world r1)).2;
      calls := calls r1 ++ [ZoneDelete (zone (params module)) (delete_kwargs_of module)] |}).
Proof.
  intros Hget Hne Hc. unfold ensure_absent, bind. rewrite Hget.
  cbn [zone_truthy]. rewrite (bool_decide_eq_false_2 _ Hne). cbn [negb].
  rewrite Hc. unfold try_, ret, fail_json. fold (delete_kwargs_of module).
  by destruct (zone_delete _ _ _) as [[[]|exc] w2].
Qed.

(** X6. With a target state other than [present] and no zone on the
    remote side (the fetch raises "not found" or returns an empty
    mapping), [main] exits with [changed = False], no [sdn_zone] and no
    apply, after the fetch alone, in and out of check mode. *)
Theorem absent_target_absent_zone (p : Params) (check : bool) (r : Run W)
    (o : Outcome Dict) (w' : W) :
  state p ≠ "present" →
  zone_get (zone p) (world r) = (o, w') →
  o = Returned ∅ ∨ (∃ exc, o = Raised exc ∧ not_found exc = true) →
  main {| params := p; check_mode := check |} r =
  (Done {| changed := false;
           msg := "SDN zone '" +:+ zone p +:+ "' already absent.";
           sdn_zone := None;
           sdn_configuration_applied := None |},
   {| world := w'; calls := calls r ++ [ZoneGet (zone p)] |}).
Proof.
  intros Hs Hget Ho.
  destruct (get_zone_absent_answer _ _ _ _ Hget Ho) as (ez & Hz & Ht).
  rewrite main_run. unfold reconcile. cbn [params].
  rewrite (proj2 (String.eqb_neq _ _) Hs).
  by rewrite (ensure_absent_absent {| params := p; check_mode := check |} r ez _ Hz Ht).
Qed.

(** X7. [ensure_present] reads an empty mapping returned by the fetch as
    no zone: in check mode it predicts a create and returns the create
    payload, outside check mode its second call is the create. *)
Theorem empty_mapping_read_as_absent (module : AnsibleModule) (r : Run W) (w' : W) :
  zone_get (zone (params module)) (world r) = (Returned ∅, w') →
  (check_mode module = true →
   ensure_present module r =
   (Done (true, Some (create_payload_of module),
          "SDN zone '" +:+ zone (params module)
          +:+ "' would be created (check mode)."),
    {| world := w'; calls := calls r ++ [ZoneGet (zone (params module))] |}))
  ∧ (check_mode module = false →
     ∃ tail, issued (ensure_present module) r
             = ZoneGet (zone (params module))
               :: ZonesPost (create_payload_of module) :: tail).
Proof.
  intros Hget.
  destruct (get_zone_absent_answer _ r _ _ Hget (or_introl eq_refl))
    as (ez & Hz & Ht).
  split; intros Hc.
  - by apply (ensure_present_check_create module r ez).
  - unfold issued. rewrite (ensure_present_create module r ez _ Hz Ht Hc).
    cbn zeta. cbn [world calls].
    destruct (zones_post _ _) as [[[]|exc] w2]; cbn [fst snd calls].
    + rewrite get_zone_run. cbn [world calls].
      destruct (zone_get _ w2) as [[z|exc] w3]; cbn [fst snd];
        [|destruct (not_found exc)]; cbn [snd calls];
        rewrite <- !app_assoc, drop_app_length; by eexists.
    + rewrite <- !app_assoc, drop_app_length. by eexists.
Qed.

(** X8. Outside check mode an exception of the create, of the update or
    of the delete ends the run in [fail_json] with the message of that
    step and the text of the exception; the failed call is the last call
    of the run: no second fetch follows. *)
Theorem mutation_failure_is_fatal (module : AnsibleModule) (r r1 : Run W)
    (exc : Exc) (w2 : W) :
  check_mode module = false →
  (∀ existing_zone,
     get_zone (zone (params module)) r = (Done existing_zone, r1) →
     zone_truthy existing_zone = false →
     zones_post (create_payload_of module) (world r1) = (Raised exc, w2) →
     ensure_present module r =
     (FailJson ("Failed to create SDN zone '" +:+ zone (params module)
                +:+ "': " +:+ to_native exc),
      {| world := w2;
         calls := calls r1 ++ [ZonesPost (create_payload_of module)] |}))
  ∧ (∀ existing,
       get_zone (zone (params module)) r = (Done (Some existing), r1) →
       existing ≠ ∅ →
       type_conflict module existing = false →
       build_updates existing (build_payload (params module)) ≠ ∅ →
       zone_put (zone (params module)) (update_payload_of module existing)
         (world r1) = (Raised exc, w2) →
       ensure_present module r =
       (FailJson ("Failed to update SDN zone '" +:+ zone (params module)
                  +:+ "': " +:+ to_native exc),
        {| world := w2;
           calls := calls r1 ++ [ZonePut (zone (params module))
                                   (update_payload_of module existing)] |}))
  ∧ (∀ existing,
       get_zone (zone (params module)) r = (Done (Some existing), r1) →
       existing ≠ ∅ →
       zone_delete (zone (params module)) (delete_kwargs_of module)
         (world r1) = (Raised exc, w2) →
       ensure_absent module r =
       (FailJson ("Failed to remove SDN zone '" +:+ zone (params module)
                  +:+ "': " +:+ to_native exc),
        {| world := w2;
           calls := calls r1 ++ [ZoneDelete (zone (params module))
                                   (delete_kwargs_of module)] |})).
Proof.
  intros Hc. split; [|split].
  - intros ez Hget Hz Hpost.
    rewrite (ensure_present_create module r ez r1 Hget Hz Hc).
    cbn zeta. by rewrite Hpost.
  - intros existing Hget Hne Ht Hup Hput.
    rewrite (ensure_present_update module r existing r1 Hget Hne Ht Hup Hc).
    cbn zeta. by rewrite Hput.
  - intros existing Hget Hne Hdel.
    rewrite (ensure_absent_delete module r existing r1 Hget Hne Hc).
    by rewrite Hdel.
Qed.

(** X9. After a create or an update that returned, [ensure_present] runs
    [get_zone] once more and returns [changed = True] with whatever that
    fetch reports, [None] included; when that fetch fails the run ends in
    its [fail_json], although the zone was changed. *)
Theorem refetch_decides_result (module : AnsibleModule) (r r1 : Run W) (w2 : W) :
  check_mode module = false →
  (∀ existing_zone,
     get_zone (zone (params module)) r = (Done existing_zone, r1) →
     zone_truthy existing_zone = false →
     zones_post (create_payload_of module) (world r1) = (Returned tt, w2) →
     ensure_present module r =
     match get_zone (zone (params module))
             {| world := w2;
                calls := calls r1 ++ [ZonesPost (create_payload_of module)] |} with
     | (Done new_zone, r3) =>
         (Done (true, new_zone,
                "SDN zone '" +:+ zone (params module) +:+ "' created."), r3)
     | (FailJson e, r3) => (FailJson e, r3)
     end)
  ∧ (∀ existing,
       get_zone (zone (params module)) r = (Done (Some existing), r1) →
       existing ≠ ∅ →
       type_conflict module existing = false →
       build_updates existing (build_payload (params module)) ≠ ∅ →
       zone_put (zone (params module)) (update_payload_of module existing)
         (world r1) = (Returned tt, w2) →
       ensure_present module r =
       match get_zone (zone (params module))
               {| world := w2;
                  calls := calls r1 ++ [ZonePut (zone (params module))
                                          (update_payload_of module existing)] |} with
       | (Done new_zone, r3) =>
           (Done (true, new_zone,
                  "SDN zone '" +:+ zone (params module) +:+ "' updated."), r3)
       | (FailJson e, r3) => (FailJson e, r3)
       end).
Proof.
  intros Hc. split.
  - intros ez Hget Hz Hpost.
    rewrite (ensure_present_create module r ez r1 Hget Hz Hc).
    cbn zeta. by rewrite Hpost.
  - intros existing Hget Hne Ht Hup Hput.
    rewrite (ensure_present_update module r existing r1 Hget Hne Ht Hup Hc).
    cbn zeta. by rewrite Hput.
Qed.

(** X10. When the reconciler has changed the zone and the apply raises,
    [main] ends in [fail_json] with the message of the committer: the
    change is made and not reported. *)
Theorem apply_failure_after_change (module : AnsibleModule) (r r1 : Run W)
    (zone_data : option Dict) (message : string) (exc : Exc) (w2 : W) :
  reconcile module r = (Done (true, zone_data, message), r1) →
  check_mode module = false →
  sdn_put {[ "apply" := VInt 1 ]} (world r1) = (Raised exc, w2) →
  main module r =
  (FailJson ("Failed to apply SDN configuration: " +:+ to_native exc),
   {| world := w2; calls := calls r1 ++ [SdnPut {[ "apply" := VInt 1 ]}] |}).
Proof.
  intros Hrec Hc Hput. rewrite main_run, Hrec, Hc.
  unfold apply_sdn_configuration, bind, try_, ret, fail_json.
  by rewrite Hput.
Qed.

(** X11. When [main] exits with a result, the result reports the apply
    exactly when a change was reported outside check mode, and it carries
    the flag, the zone and the message of the reconciler. *)
Theorem exit_flags (module : AnsibleModule) (r r' : Run W) (out : ExitJson) :
  main module r = (Done out, r') →
  (sdn_configuration_applied out = Some true
   ↔ changed out = true ∧ check_mode module = false)
  ∧ (sdn_configuration_applied out = None
     ↔ changed out = false ∨ check_mode module = true)
  ∧ (∃ r1, reconcile module r = (Done (changed out, sdn_zone out, msg out), r1)).
Proof.
  rewrite main_run.
  destruct (reconcile module r) as [[[[[] z] m]|e] r1]; [| |done].
  - unfold apply_sdn_configuration, bind, try_, ret, fail_json.
    destruct (check_mode module).
    + intros [= <- <-]. cbn. split_and!.
      * split; [done | by intros [_ ?]].
      * split; [by right | done].
      * by eexists.
    + destruct (sdn_put _ _) as [[[]|exc] w2]; [|done].
      intros [= <- <-]. cbn. split_and!.
      * done.
      * split; [done | by intros [?|?]].
      * by eexists.
  - intros [= <- <-]. cbn. split_and!.
    + split; [done | by intros [? _]].
    + split; [by left | done].
    + by eexists.
Qed.

(** X12. An exception of the fetch that is not a "not found" ends [main]
    in [fail_json] after that one call, for both target states and in and
    out of check mode. *)
Theorem fetch_failure_is_fatal (module : AnsibleModule) (r : Run W)
    (exc : Exc) (w' : W) :
  zone_get (zone (params module)) (world r) = (Raised exc, w') →
  not_found exc = false →
  main module r =
  (FailJson ("Failed to retrieve SDN zone '" +:+ zone (params module)
             +:+ "': " +:+ to_native exc),
   {| world := w'; calls := calls r ++ [ZoneGet (zone (params module))] |}).
Proof.
  intros Hget Hnf.
  assert (Hz : get_zone (zone (params module)) r =
               (FailJson ("Failed to retrieve SDN zone '" +:+ zone (params module)
                          +:+ "': " +:+ to_native exc),
                {| world := w'; calls := calls r ++ [ZoneGet (zone (params module))] |})).
  { rewrite get_zone_run, Hget. cbn [fst snd]. by rewrite Hnf. }
  rewrite main_run. unfold reconcile. destruct (_ =? _)%string.
  - by rewrite (ensure_present_fetch_failed module r _ _ Hz).
  - unfold ensure_absent, bind. by rewrite Hz.
Qed.
End More.



Section More2.
Context {W : Type} `{!Api W}.

(** X13. [ensure_present] returns [changed = False] only for a fetched,
    non-empty zone against which the update set is empty; it then returns
    that zone and has issued the fetch alone. *)
Theorem unchanged_only_without_difference (module : AnsibleModule)
    (r r' : Run W) (zone_data : option Dict) (message : string) :
  ensure_present module r = (Done (false, zone_data, message), r') →
  ∃ existing,
    zone_get (zone (params module)) (world r) = (Returned existing, world r')
    ∧ zone_data = Some existing
    ∧ existing ≠ ∅
    ∧ build_updates existing (build_payload (params module)) = ∅
    ∧ calls r' = calls r ++ [ZoneGet (zone (params module))].
Proof.
  destruct r as [w cs]. unfold_run. api_cases.
  all: try (intros [=]; fail).
  all: intros [= <- <- <-]; cbn [world calls].
  all: cbn [zone_truthy negb default from_option id] in *; try discriminate.
  all: match goal with
       | Hz : negb (negb (bool_decide (?a = ∅))) = false,
         Hu : bool_decide (build_updates ?a _ = ∅) = true |- _ =>
           exists a; apply negb_false_iff, negb_true_iff, bool_decide_eq_false in Hz;
           apply bool_decide_eq_true in Hu; by split_and!
       end.
Qed.

(** An update is issued only for a fetched zone with a non-empty update
    set, and carries the update payload for that zone. *)
Lemma ensure_present_update_call (module : AnsibleModule) (r : Run W)
    (zone_name : string) (kwargs : Dict) :
  ZonePut zone_name kwargs ∈ issued (ensure_present module) r →
  ∃ existing,
    (zone_get (zone (params module)) (world r)).1 = Returned existing
    ∧ build_updates existing (build_payload (params module)) ≠ ∅
    ∧ zone_name = zone (params module)
    ∧ kwargs = update_payload_of module existing.
Proof.
  destruct r as [w cs]. unfold issued, update_payload_of. unfold_run. api_cases.
  all: rewrite <- ?app_assoc, drop_app_length; cbn [app].
  all: intros Hin.
  all: repeat (apply elem_of_cons in Hin as [Hin|Hin]; [try discriminate|]);
       try (by apply elem_of_nil in Hin).
  all: injection Hin as -> ->.
  all: cbn [zone_truthy negb default from_option id] in *; try discriminate.
  all: match goal with
       | Hu : bool_decide (build_updates ?a _ = ∅) = false |- _ =>
           exists a; apply bool_decide_eq_false in Hu; by split_and!
       end.
Qed.

(** X14. Every update of a run of [main] carries at least one field
    other than the lock token, and each such field is an entry of the
    desired payload: the lock token alone never causes an update. *)
Theorem update_carries_a_difference (module : AnsibleModule) (r : Run W)
    (zone_name : string) (kwargs : Dict) :
  ZonePut zone_name kwargs ∈ issued (main module) r →
  (∃ key v, key ≠ "lock-token" ∧ kwargs !! key = Some v)
  ∧ (∀ key v, kwargs !! key = Some v → key ≠ "lock-token" →
              build_payload (params module) !! key = Some v).
Proof.
  intros Hin.
  assert (Hex : ∃ existing,
            build_updates existing (build_payload (params module)) ≠ ∅
            ∧ kwargs = update_payload_of module existing).
  { destruct (main_issued module r) as [Hi | (_ & _ & Hi)]; rewrite Hi in Hin.
    - unfold reconcile in Hin. destruct (_ =? _)%string.
      + apply ensure_present_update_call in Hin as (e & _ & ? & _ & ?). eauto.
      + by apply ensure_absent_call in Hin as [?|(_ & ?)].
    - apply elem_of_app in Hin as [Hin|Hin];
        [|by apply list_elem_of_singleton in Hin].
      unfold reconcile in Hin. destruct (_ =? _)%string.
      + apply ensure_present_update_call in Hin as (e & _ & ? & _ & ?). eauto.
      + by apply ensure_absent_call in Hin as [?|(_ & ?)]. }
  destruct Hex as (existing & Hne & ->). split.
  - apply map_choose in Hne as (key & v & Hk). exists key, v.
    assert (key ≠ "lock-token").
    { intros ->. rewrite build_updates_other in Hk; [done|].
      apply reserved_keys_not_fields. }
    split; [done|]. by rewrite update_payload_other.
  - intros key v Hk Hl. rewrite update_payload_other in Hk by done.
    by apply build_updates_Some in Hk as [? _].
Qed.

(** X15. In check mode a run of [main] is exactly one fetch: the trace
    grows by that call, and the remote side is left as the fetch left
    it. *)
Theorem check_mode_single_fetch (p : Params) (r : Run W) :
  (main {| params := p; check_mode := true |} r).2 =
  {| world := (zone_get (zone p) (world r)).2;
     calls := calls r ++ [ZoneGet (zone p)] |}.
Proof.
  destruct r as [w cs]. unfold_run. cbn [params check_mode].
  destruct (state p =? "present")%string; cbn [fst snd world calls];
    api_cases; reflexivity.
Qed.

(** X16. In check mode, for a zone to create and a non-empty lock token,
    [main] exits with the create payload as [sdn_zone]: the output holds
    the lock token under ["lock-token"]. *)
Theorem check_mode_create_shows_lock_token (p : Params) (r : Run W)
    (o : Outcome Dict) (w' : W) (t : string) :
  state p = "present" →
  zone_get (zone p) (world r) = (o, w') →
  o = Returned ∅ ∨ (∃ exc, o = Raised exc ∧ not_found exc = true) →
  lock_token p = Some t →
  t ≠ "" →
  ∃ out predicted,
    main {| params := p; check_mode := true |} r =
    (Done out, {| world := w'; calls := calls r ++ [ZoneGet (zone p)] |})
    ∧ changed out = true
    ∧ sdn_zone out = Some predicted
    ∧ predicted !! "lock-token" = Some (VStr t)
    ∧ predicted !! "zone" = Some (VStr (zone p)).
Proof.
  intros Hs Hget Ho Ht Hne.
  assert (Hz : ∃ ez, get_zone (zone p) r =
                 (Done ez, {| world := w'; calls := calls r ++ [ZoneGet (zone p)] |})
                 ∧ zone_truthy ez = false).
  { rewrite get_zone_run, Hget. cbn [fst snd].
    destruct Ho as [-> | (exc & -> & Hnf)]; [by exists (Some ∅)|].
    rewrite Hnf. by exists None. }
  destruct Hz as (ez & Hz & Htr).
  set (module := {| params := p; check_mode := true |}).
  exists {| changed := true;
            msg := "SDN zone '" +:+ zone p +:+ "' would be created (check mode).";
            sdn_zone := Some (create_payload_of module);
            sdn_configuration_applied := None |}, (create_payload_of module).
  split_and!; try done.
  - rewrite main_run. unfold reconcile. cbn [params module]. rewrite Hs.
    change ("present" =? "present")%string with true. cbn iota.
    by rewrite (ensure_present_check_create module r ez _ Hz Htr eq_refl).
  - rewrite create_payload_lock. unfold lock_field. cbn [params module].
    rewrite Ht. by rewrite (proj2 (str_truthy_Some t) Hne).
  - apply create_payload_zone.
Qed.
End More2.

(** ** Runs against the cluster that keeps what it is sent *)

(** X17. Outside check mode, when a run of [ensure_absent] ends with a
    result, the cluster no longer holds the zone (or holds an empty
    mapping for it), the other zones are as they were, and a second run
    fetches and returns [changed = False] without a delete. *)
Theorem ensure_absent_idempotent (module : AnsibleModule) (r r1 : Run Cluster)
    (res : Result3) :
  check_mode module = false →
  ensure_absent module r = (Done res, r1) →
  zone_truthy (zones (world r1) !! zone (params module)) = false
  ∧ (∀ other, other ≠ zone (params module) →
              zones (world r1) !! other = zones (world r) !! other)
  ∧ ensure_absent module r1 =
    (Done (false, None,
           "SDN zone '" +:+ zone (params module) +:+ "' already absent."),
     {| world := world r1;
        calls := calls r1 ++ [ZoneGet (zone (params module))] |}).
Proof.
  intros Hc Hrun.
  assert (Hgone : zone_truthy (zones (world r1) !! zone (params module)) = false
                  ∧ ∀ other, other ≠ zone (params module) →
                      zones (world r1) !! other = zones (world r) !! other).
  { pose proof (cluster_get_zone (zone (params module)) r) as Hget.
    destruct (zone_truthy (zones (world r) !! zone (params module))) eqn:Hz.
    - destruct (zones (world r) !! zone (params module)) as [existing|] eqn:Hl;
        [|done].
      apply zone_truthy_Some in Hz. revert Hrun.
      unfold ensure_absent, bind. rewrite Hget.
      cbn [zone_truthy]. rewrite (bool_decide_eq_false_2 _ Hz). cbn [negb].
      rewrite Hc. unfold try_, ret, fail_json.
      cbn [zone_delete cluster_api world calls]. unfold cluster_delete.
      rewrite Hl. intros [= <- <-]. cbn [world zones]. split.
      + by rewrite lookup_delete_eq.
      + intros other Ho. by rewrite lookup_delete_ne.
    - rewrite (ensure_absent_absent module r _ _ Hget Hz) in Hrun.
      injection Hrun as <- <-. by cbn [world]. }
  destruct Hgone as [Hgone Hother]. split_and!; try done.
  apply (ensure_absent_absent module r1
           (zones (world r1) !! zone (params module))); [|done].
  by rewrite cluster_get_zone.
Qed.

(** X18. Outside check mode, when [ensure_present] changes a zone the
    cluster holds, the zone it returns is the stored one; fields outside
    the desired payload are as they were, the desired fields carry the
    desired [str()] forms, and the other zones are untouched. *)
Theorem update_preserves_other_fields (module : AnsibleModule)
    (r r1 : Run Cluster) (existing : Dict) (zone_data : option Dict)
    (message : string) :
  check_mode module = false →
  zones (world r) !! zone (params module) = Some existing →
  existing ≠ ∅ →
  ensure_present module r = (Done (true, zone_data, message), r1) →
  ∃ d,
    zones (world r1) !! zone (params module) = Some d
    ∧ zone_data = Some d
    ∧ (∀ key, build_payload (params module) !! key = None →
              d !! key = existing !! key)
    ∧ (∀ key v, build_payload (params module) !! key = Some v →
                py_str (dict_get d key) = py_str v)
    ∧ (∀ other, other ≠ zone (params module) →
                zones (world r1) !! other = zones (world r) !! other).
Proof.
  intros Hc Hl Hne Hrun.
  pose proof (cluster_get_zone (zone (params module)) r) as Hget.
  rewrite Hl in Hget.
  destruct (type_conflict module existing) eqn:Ht.
  { by rewrite (ensure_present_conflict _ _ _ _ Hget Hne Ht) in Hrun. }
  destruct (decide (build_updates existing (build_payload (params module)) = ∅))
    as [Hup|Hup].
  { by rewrite (ensure_present_settled _ _ _ _ Hget Hne Ht Hup) in Hrun. }
  rewrite (ensure_present_update _ _ _ _ Hget Hne Ht Hup Hc) in Hrun.
  cbn [zone_put cluster_api world calls] in Hrun. unfold cluster_put in Hrun.
  rewrite Hl in Hrun. cbn [fst snd] in Hrun.
  rewrite cluster_get_zone in Hrun. cbn [world zones] in Hrun.
  rewrite lookup_insert_eq in Hrun. injection Hrun as <- <- <-.
  cbn [world zones]. eexists. rewrite lookup_insert_eq.
  split_and!; try done.
  - intros key Hk. rewrite lookup_union.
    destruct (decide (key = "lock-token")) as [->|Hlk].
    + rewrite lookup_delete_eq. by destruct (existing !! "lock-token").
    + rewrite lookup_delete_ne, update_payload_other by done.
      rewrite build_updates_lookup, Hk. by destruct (existing !! key).
  - intros key v Hv.
    destruct (update_settled module existing Hne Ht) as (_ & _ & Hs).
    by apply (proj1 (build_updates_empty _ _) Hs).
  - intros other Ho. by rewrite lookup_insert_ne.
Qed.

(** The fixture's MTU. *)
Lemma payload_values_int_or_str_witness :
  (∃ n, VInt 1400 = VInt n) ∨ (∃ s, VInt 1400 = VStr s).
Proof.
  apply (payload_values_int_or_str test_params "mtu" (VInt 1400)).
  apply (bool_decide_unpack _). by vm_compute.
Defined.

(** The fixture's zone, to be removed, not found. *)
Lemma absent_target_absent_zone_witness :
  main {| params := with_state "absent" test_params; check_mode := false |}
    (fresh (mock [Raised (ResourceException (Some 404) "404 Not Found")]))
  = (Done {| changed := false;
             msg := "SDN zone 'tenant01' already absent.";
             sdn_zone := None;
             sdn_configuration_applied := None |},
     {| world := mock []; calls := [ZoneGet "tenant01"] |}).
Proof.
  refine (absent_target_absent_zone (W := Mock)
            (with_state "absent" test_params) false
            (fresh (mock [Raised (ResourceException (Some 404) "404 Not Found")]))
            (Raised (ResourceException (Some 404) "404 Not Found")) (mock [])
            _ eq_refl _).
  - discriminate.
  - right. eexists. split; reflexivity.
Defined.

(** The fetch returns an empty mapping, in check mode. *)
Lemma empty_mapping_read_as_absent_witness :
  ensure_present {| params := test_params; check_mode := true |}
    (fresh (mock [Returned ∅]))
  = (Done (true,
           Some (create_payload_of {| params := test_params; check_mode := true |}),
           "SDN zone 'tenant01' would be created (check mode)."),
     {| world := mock []; calls := [ZoneGet "tenant01"] |}).
Proof.
  exact (proj1 (empty_mapping_read_as_absent (W := Mock)
                  {| params := test_params; check_mode := true |}
                  (fresh (mock [Returned ∅])) (mock []) eq_refl) eq_refl).
Defined.

(** The create of the fixture's zone times out. *)
Lemma mutation_failure_is_fatal_witness :
  ensure_present {| params := test_params; check_mode := false |}
    (fresh {| side_effect := [Raised (ResourceException (Some 404) "404 Not Found")];
              mutation := Raised (OtherException "read timed out") |})
  = (FailJson "Failed to create SDN zone 'tenant01': read timed out",
     {| world := {| side_effect := [];
                    mutation := Raised (OtherException "read timed out") |};
        calls := [ZoneGet "tenant01";
                  ZonesPost (create_payload_of
                               {| params := test_params; check_mode := false |})] |}).
Proof.
  exact (proj1 (mutation_failure_is_fatal (W := Mock)
                  {| params := test_params; check_mode := false |}
                  (fresh {| side_effect :=
                              [Raised (ResourceException (Some 404) "404 Not Found")];
                            mutation := Raised (OtherException "read timed out") |})
                  {| world := {| side_effect := [];
                                 mutation := Raised (OtherException "read timed out") |};
                     calls := [ZoneGet "tenant01"] |}
                  (OtherException "read timed out")
                  {| side_effect := [];
                     mutation := Raised (OtherException "read timed out") |}
                  eq_refl)
           None eq_refl eq_refl eq_refl).
Defined.

(** The create returns and the second fetch still finds nothing. *)
Lemma refetch_decides_result_witness :
  ensure_present {| params := test_params; check_mode := false |}
    (fresh (mock [Raised (ResourceException (Some 404) "404 Not Found");
                  Raised (ResourceException (Some 404) "404 Not Found")]))
  = (Done (true, None, "SDN zone 'tenant01' created."),
     {| world := mock [];
        calls := [ZoneGet "tenant01";
                  ZonesPost (create_payload_of
                               {| params := test_params; check_mode := false |});
                  ZoneGet "tenant01"] |}).
Proof.
  exact (proj1 (refetch_decides_result (W := Mock)
                  {| params := test_params; check_mode := false |}
                  (fresh (mock [Raised (ResourceException (Some 404) "404 Not Found");
                                Raised (ResourceException (Some 404) "404 Not Found")]))
                  {| world := mock [Raised (ResourceException (Some 404) "404 Not Found")];
                     calls := [ZoneGet "tenant01"] |}
                  (mock [Raised (ResourceException (Some 404) "404 Not Found")])
                  eq_refl)
           None eq_refl eq_refl eq_refl).
Defined.

(** The fixture's zone is created and the apply times out. *)
Lemma apply_failure_after_change_witness :
  main {| params := test_params; check_mode := false |}
    (fresh {| fetches := [Raised (ResourceException (Some 404) "404 Not Found");
                          Returned test_zone];
              answers := [Returned tt; Raised (OtherException "read timed out")] |})
  = (FailJson "Failed to apply SDN configuration: read timed out",
     {| world := {| fetches := []; answers := [] |};
        calls := [ZoneGet "tenant01"; ZonesPost test_zone; ZoneGet "tenant01"]
                 ++ [SdnPut {[ "apply" := VInt 1 ]}] |}).
Proof.
  refine (apply_failure_after_change (W := Script)
            {| params := test_params; check_mode := false |}
            (fresh {| fetches := [Raised (ResourceException (Some 404) "404 Not Found");
                                  Returned test_zone];
                      answers := [Returned tt;
                                  Raised (OtherException "read timed out")] |})
            {| world := {| fetches := [];
                           answers := [Raised (OtherException "read timed out")] |};
               calls := [ZoneGet "tenant01"; ZonesPost test_zone; ZoneGet "tenant01"] |}
            (Some test_zone) "SDN zone 'tenant01' created."
            (OtherException "read timed out") {| fetches := []; answers := [] |}
            _ eq_refl eq_refl).
  apply (bool_decide_unpack _). by vm_compute.
Defined.

(** The fixture's zone is created and applied. *)
Lemma exit_flags_witness :
  sdn_configuration_applied
    {| changed := true; msg := "SDN zone 'tenant01' created.";
       sdn_zone := Some {[ "zone" := VStr "tenant01" ]};
       sdn_configuration_applied := Some true |} = Some true
  ↔ changed
      {| changed := true; msg := "SDN zone 'tenant01' created.";
         sdn_zone := Some {[ "zone" := VStr "tenant01" ]};
         sdn_configuration_applied := Some true |} = true
    ∧ check_mode {| params := test_params; check_mode := false |} = false.
Proof.
  refine (proj1 (exit_flags (W := Mock)
            {| params := test_params; check_mode := false |}
            (fresh (mock [Raised (ResourceException (Some 404) "404 Not Found");
                          Returned {[ "zone" := VStr "tenant01" ]}]))
            {| world := mock [];
               calls := [ZoneGet "tenant01"; ZonesPost test_zone; ZoneGet "tenant01";
                         SdnPut {[ "apply" := VInt 1 ]}] |}
            _ _)).
  apply (bool_decide_unpack _). by vm_compute.
Defined.

(** The connection is refused, in check mode. *)
Lemma fetch_failure_is_fatal_witness :
  main {| params := test_params; check_mode := true |}
    (fresh (mock [Raised (OtherException "connection refused")]))
  = (FailJson "Failed to retrieve SDN zone 'tenant01': connection refused",
     {| world := mock []; calls := [ZoneGet "tenant01"] |}).
Proof.
  exact (fetch_failure_is_fatal (W := Mock)
           {| params := test_params; check_mode := true |}
           (fresh (mock [Raised (OtherException "connection refused")]))
           (OtherException "connection refused") (mock []) eq_refl eq_refl).
Defined.

(** The fixture against its own zone. *)
Lemma unchanged_only_without_difference_witness :
  ∃ existing,
    zone_get "tenant01" (mock [Returned test_zone]) = (Returned existing, mock [])
    ∧ Some test_zone = Some existing
    ∧ existing ≠ ∅
    ∧ build_updates existing (build_payload test_params) = ∅
    ∧ [ZoneGet "tenant01"] = [] ++ [ZoneGet "tenant01"].
Proof.
  refine (unchanged_only_without_difference (W := Mock)
            {| params := test_params; check_mode := false |}
            (fresh (mock [Returned test_zone]))
            {| world := mock []; calls := [ZoneGet "tenant01"] |}
            (Some test_zone) "SDN zone 'tenant01' already present." _).
  apply (bool_decide_unpack _). by vm_compute.
Defined.

(** The update of the MTU. *)
Lemma update_carries_a_difference_witness :
  ∃ key v, key ≠ "lock-token"
           ∧ ({[ "mtu" := VInt 1500 ]} : Dict) !! key = Some v.
Proof.
  refine (proj1 (update_carries_a_difference (W := Mock)
            {| params := with_mtu (Some 1500) test_params; check_mode := false |}
            (fresh (mock [Returned test_zone;
                          Returned (<["mtu" := VInt 1500]> test_zone)]))
            "tenant01" {[ "mtu" := VInt 1500 ]} _)).
  apply (bool_decide_unpack _). by vm_compute.
Defined.

(** The fixture with a lock token, in check mode. *)
Lemma check_mode_create_shows_lock_token_witness :
  ∃ out predicted,
    main {| params := with_lock_token (Some "t0k3n") test_params;
            check_mode := true |}
      (fresh (mock [Raised (ResourceException (Some 404) "404 Not Found")]))
    = (Done out, {| world := mock []; calls := [ZoneGet "tenant01"] |})
    ∧ changed out = true
    ∧ sdn_zone out = Some predicted
    ∧ predicted !! "lock-token" = Some (VStr "t0k3n")
    ∧ predicted !! "zone" = Some (VStr "tenant01").
Proof.
  refine (check_mode_create_shows_lock_token (W := Mock)
            (with_lock_token (Some "t0k3n") test_params)
            (fresh (mock [Raised (ResourceException (Some 404) "404 Not Found")]))
            (Raised (ResourceException (Some 404) "404 Not Found")) (mock [])
            "t0k3n" eq_refl eq_refl _ eq_refl _).
  - right. eexists. split; reflexivity.
  - discriminate.
Defined.

(** The fixture's zone removed from the cluster, then the second run. *)
Lemma ensure_absent_idempotent_witness :
  ensure_absent {| params := with_state "absent" test_params; check_mode := false |}
    {| world := {| zones := ∅; applies := 0 |};
       calls := [ZoneGet "tenant01"; ZoneDelete "tenant01" ∅] |}
  = (Done (false, None, "SDN zone 'tenant01' already absent."),
     {| world := {| zones := ∅; applies := 0 |};
        calls := [ZoneGet "tenant01"; ZoneDelete "tenant01" ∅]
                 ++ [ZoneGet "tenant01"] |}).
Proof.
  refine (proj2 (proj2 (ensure_absent_idempotent
            {| params := with_state "absent" test_params; check_mode := false |}
            (fresh {| zones := {[ "tenant01" := test_zone ]}; applies := 0 |})
            {| world := {| zones := ∅; applies := 0 |};
               calls := [ZoneGet "tenant01"; ZoneDelete "tenant01" ∅] |}
            (true, None, "SDN zone 'tenant01' removed.") eq_refl _))).
  apply (bool_decide_unpack _). by vm_compute.
Defined.

(** The MTU of the fixture's zone raised on the cluster. *)
Lemma update_preserves_other_fields_witness :
  ∃ d,
    zones {| zones := {[ "tenant01" := <["mtu" := VInt 1500]> test_zone ]};
             applies := 0 |} !! "tenant01" = Some d
    ∧ Some (<["mtu" := VInt 1500]> test_zone) = Some d
    ∧ (∀ key, build_payload (with_mtu (Some 1500) test_params) !! key = None →
              d !! key = test_zone !! key)
    ∧ (∀ key v, build_payload (with_mtu (Some 1500) test_params) !! key = Some v →
                py_str (dict_get d key) = py_str v)
    ∧ (∀ other, other ≠ "tenant01" →
                zones {| zones := {[ "tenant01" := <["mtu" := VInt 1500]> test_zone ]};
                         applies := 0 |} !! other
                = zones {| zones := {[ "tenant01" := test_zone ]};
                           applies := 0 |} !! other).
Proof.
  refine (update_preserves_other_fields
            {| params := with_mtu (Some 1500) test_params; check_mode := false |}
            (fresh {| zones := {[ "tenant01" := test_zone ]}; applies := 0 |})
            {| world := {| zones := {[ "tenant01" := <["mtu" := VInt 1500]> test_zone ]};
                           applies := 0 |};
               calls := [ZoneGet "tenant01";
                         ZonePut "tenant01" {[ "mtu" := VInt 1500 ]};
                         ZoneGet "tenant01"] |}
            test_zone (Some (<["mtu" := VInt 1500]> test_zone))
            "SDN zone 'tenant01' updated." eq_refl _ _ _).
  - apply (bool_decide_unpack _). by vm_compute.
  - apply (bool_decide_unpack _). by vm_compute.
  - apply (bool_decide_unpack _). by vm_compute.
Defined.
